(** * Type detection and type score of CleverCSV (ccsv/detect_type.py)

    A shallow embedding of [TypeDetector] and [type_score].

    - A Python [str] is a list of Unicode code points ([list Z]).
    - The Unicode character database consulted by the [regex] module
      (\d, \w, \s, \p{L}, \p{N}, \p{Sc}) and by [str.lower] is a record
      [ucd]; theorems quantify over it.  [ascii_db] is a table that
      classifies the printable ASCII range as Unicode does.
    - A compiled pattern is a regular expression AST; [regex.fullmatch]
      is decided with Brzozowski derivatives, which is exact for the
      patterns of this file (no back-references).
    - Python exceptions are the [Err] case of the result monad [M]. *)

From Stdlib Require Import ZArith List Bool String Ascii QArith Lia.
Import ListNotations.
Local Open Scope Z_scope.

(** ** Unicode character database *)

Record ucd := {
  u_Nd : Z -> bool;        (* \d : decimal digit *)
  u_L : Z -> bool;         (* \p{L} *)
  u_N : Z -> bool;         (* \p{N} *)
  u_Sc : Z -> bool;        (* \p{Sc} *)
  u_word : Z -> bool;      (* \w *)
  u_space : Z -> bool;     (* \s *)
  u_lower : Z -> list Z    (* full lower-case mapping of str.lower *)
}.

Definition in_range (lo hi a : Z) : bool := (lo <=? a) && (a <=? hi).

(** Printable ASCII (0x20 .. 0x7e) as Unicode classifies it. *)
Definition ascii_db : ucd := {|
  u_Nd := in_range 48 57;
  u_L := fun a => in_range 65 90 a || in_range 97 122 a;
  u_N := in_range 48 57;
  u_Sc := fun a => a =? 36;
  u_word := fun a => in_range 48 57 a || in_range 65 90 a
                     || in_range 97 122 a || (a =? 95);
  u_space := fun a => in_range 9 13 a || (a =? 32);
  u_lower := fun a => if in_range 65 90 a then [a + 32] else [a]
|}.

Definition ucd_agree (U1 U2 : ucd) (a : Z) : Prop :=
  u_Nd U1 a = u_Nd U2 a /\ u_L U1 a = u_L U2 a /\ u_N U1 a = u_N U2 a /\
  u_Sc U1 a = u_Sc U2 a /\ u_word U1 a = u_word U2 a /\
  u_space U1 a = u_space U2 a /\ u_lower U1 a = u_lower U2 a.

(** A database that agrees with Unicode on printable ASCII. *)
Definition ascii_ok (U : ucd) : Prop :=
  forall a, 32 <= a <= 126 -> ucd_agree U ascii_db a.

Definition printable (s : list Z) : bool := forallb (in_range 32 126) s.

(** ** Python strings *)

Definition code (c : ascii) : Z := Z.of_nat (nat_of_ascii c).

(** The code points of an ASCII string literal. *)
Fixpoint str (s : string) : list Z :=
  match s with
  | EmptyString => []
  | String c t => code c :: str t
  end.

(** ** Character classes and regular expressions *)

Inductive cls :=
| CChar (a : Z)           (* a literal character *)
| CRange (lo hi : Z)      (* [lo-hi] *)
| CDigit                  (* \d *)
| CWord                   (* \w *)
| CSpace                  (* \s *)
| CLetter                 (* \p{L} *)
| CNumber                 (* \p{N} *)
| CCurrency               (* \p{Sc} *)
| CAny                    (* . : anything but a newline *)
| COr (k1 k2 : cls).

Fixpoint cls_eval (U : ucd) (k : cls) (a : Z) : bool :=
  match k with
  | CChar b => a =? b
  | CRange lo hi => in_range lo hi a
  | CDigit => u_Nd U a
  | CWord => u_word U a
  | CSpace => u_space U a
  | CLetter => u_L U a
  | CNumber => u_N U a
  | CCurrency => u_Sc U a
  | CAny => negb (a =? 10)
  | COr k1 k2 => cls_eval U k1 a || cls_eval U k2 a
  end.

Inductive re :=
| Void
| Eps
| Cls (k : cls)
| Seq (r1 r2 : re)
| Alt (r1 r2 : re)
| Star (r : re).

(** Smart constructors used by the derivative. *)
Definition seq (r1 r2 : re) : re :=
  match r1, r2 with
  | Void, _ => Void
  | _, Void => Void
  | Eps, _ => r2
  | _, _ => Seq r1 r2
  end.

Definition alt (r1 r2 : re) : re :=
  match r1, r2 with
  | Void, _ => r2
  | _, Void => r1
  | _, _ => Alt r1 r2
  end.

Fixpoint nullable (r : re) : bool :=
  match r with
  | Void => false
  | Eps => true
  | Cls _ => false
  | Seq r1 r2 => nullable r1 && nullable r2
  | Alt r1 r2 => nullable r1 || nullable r2
  | Star _ => true
  end.

Fixpoint deriv (U : ucd) (a : Z) (r : re) : re :=
  match r with
  | Void => Void
  | Eps => Void
  | Cls k => if cls_eval U k a then Eps else Void
  | Seq r1 r2 =>
      alt (seq (deriv U a r1) r2) (if nullable r1 then deriv U a r2 else Void)
  | Alt r1 r2 => alt (deriv U a r1) (deriv U a r2)
  | Star r1 => seq (deriv U a r1) (Star r1)
  end.

Definition matches_re (U : ucd) (r : re) (s : list Z) : bool :=
  nullable (fold_left (fun r a => deriv U a r) s r).

(** The language of a regular expression. *)
Inductive lang (U : ucd) : re -> list Z -> Prop :=
| LEps : lang U Eps []
| LCls k a : cls_eval U k a = true -> lang U (Cls k) [a]
| LSeq r1 r2 s1 s2 : lang U r1 s1 -> lang U r2 s2 -> lang U (Seq r1 r2) (s1 ++ s2)
| LAltL r1 r2 s : lang U r1 s -> lang U (Alt r1 r2) s
| LAltR r1 r2 s : lang U r2 s -> lang U (Alt r1 r2) s
| LStar0 r : lang U (Star r) []
| LStarS r s1 s2 : lang U r s1 -> lang U (Star r) s2 -> lang U (Star r) (s1 ++ s2).

(** Regex combinators of the source patterns. *)
Definition opt (r : re) : re := Alt r Eps.                 (* r? *)
Definition plus (r : re) : re := Seq r (Star r).           (* r+ *)
Fixpoint rep (n : nat) (r : re) : re :=                    (* r{n} *)
  match n with O => Eps | S m => Seq r (rep m r) end.
Fixpoint rep_opt (n : nat) (r : re) : re :=                (* r{0,n} *)
  match n with O => Eps | S m => opt (Seq r (rep_opt m r)) end.
Definition rep_range (lo hi : nat) (r : re) : re :=        (* r{lo,hi} *)
  Seq (rep lo r) (rep_opt (hi - lo) r).
Definition ch (c : ascii) : re := Cls (CChar (code c)).
Definition rng (a b : ascii) : cls := CRange (code a) (code b).
Fixpoint oneof (s : string) : cls :=                       (* [abc] *)
  match s with
  | EmptyString => CRange 1 0
  | String c EmptyString => CChar (code c)
  | String c t => COr (CChar (code c)) (oneof t)
  end.
Fixpoint lit (s : string) : re :=                          (* abc *)
  match s with
  | EmptyString => Eps
  | String c EmptyString => ch c
  | String c t => Seq (ch c) (lit t)
  end.
Fixpoint alts (rs : list re) : re :=                       (* r1|r2|... *)
  match rs with
  | [] => Void
  | [r] => r
  | r :: t => Alt r (alts t)
  end.

(** A compiled pattern: a plain regex; a regex behind a one-character
    lookahead [(?=k)r]; or [pre(grp)] whose group 1 is read back. *)
Inductive pattern :=
| Pat (r : re)
| PatLook (k : cls) (r : re)
| PatGroup (pre grp : re).

(** Group 1 of [pre(grp)] under fullmatch: the prefix lengths are tried
    from the longest down, the order in which the backtracking engine
    tries them for the currency prefix [\p{Sc}\s?], whose only choice
    point is a greedy optional. *)
Fixpoint split_from (U : ucd) (pre grp : re) (s : list Z) (k : nat)
  : option (list Z) :=
  let ok := matches_re U pre (firstn k s) && matches_re U grp (skipn k s) in
  match k with
  | O => if ok then Some (skipn 0 s) else None
  | S k' => if ok then Some (skipn k s) else split_from U pre grp s k'
  end.

Definition group1 (U : ucd) (pre grp : re) (s : list Z) : option (list Z) :=
  split_from U pre grp s (List.length s).

(** [pat.fullmatch(s) is not None]. *)
Definition fullmatch (U : ucd) (p : pattern) (s : list Z) : bool :=
  match p with
  | Pat r => matches_re U r s
  | PatLook k r =>
      match s with
      | a :: _ => cls_eval U k a && matches_re U r s
      | [] => false
      end
  | PatGroup pre grp =>
      match group1 U pre grp s with Some _ => true | None => false end
  end.

(** ** The pattern catalogue ([PATTERNS]) *)

Definition digit : re := Cls CDigit.                        (* \d *)
Definition sign : re := opt (Cls (oneof "+-")).             (* [+-]? *)
Definition alpha : cls := COr (rng "A" "Z") (rng "a" "z").  (* [A-Za-z] *)
Definition dec09 : cls := rng "0" "9".                      (* [0-9] *)
Definition exponent : re :=                                 (* [eE][+-]?\d+ *)
  Seq (Cls (oneof "eE")) (Seq sign (plus digit)).

(** [(?P<g>x)?(?(g)yes|no)]: the group is tried first, and [no] is the
    branch taken when it is not; as a language this is [x yes | no]. *)
Definition cond_opt (x yes no : re) : re := Alt (Seq x yes) no.

Definition number_1 : pattern :=
  PatLook (COr (CRange (code "+") (code ".")) CDigit)   (* (?=[+-\.\d]) *)
    (Seq sign
    (Seq (opt (Alt (ch "0") (Seq (Cls (rng "1" "9")) (Star digit))))
         (Alt
           (cond_opt (ch ".")
              (Seq (Star digit) (opt (Seq (plus digit) exponent)))
              (opt exponent))
           (cond_opt (ch ",")
              (Seq (plus digit) (opt (Seq (plus digit) exponent)))
              (opt exponent))))).

Definition number_grouped (thousands decimal : ascii) : re :=
  Seq sign
  (Seq (Alt (Cls (rng "1" "9")) (Seq (Cls (rng "1" "9")) (rep_range 0 2 digit)))
  (Seq (plus (Seq (ch thousands) (rep 3 digit)))
       (Seq (ch decimal) (Star digit)))).

Definition number_2 : pattern := Pat (number_grouped "," ".").
Definition number_3 : pattern := Pat (number_grouped "." ",").

Definition url_user : cls := COr (oneof "-;:&=+$,") CWord.  (* [-;:&=\+\$,\w] *)
Definition url_host : re :=                                 (* [A-Za-z0-9.-]+ *)
  plus (Cls (COr alpha (COr dec09 (oneof ".-")))).

Definition url : pattern :=
  Pat (Seq
    (Alt
      (Seq (Seq (rep_range 3 9 (Cls alpha)) (Seq (ch ":") (opt (lit "//"))))
           (Seq (opt (Seq (plus (Cls url_user)) (ch "@"))) url_host))
      (Seq (Alt (Seq (lit "www") (Cls CAny)) (Seq (plus (Cls url_user)) (ch "@")))
           url_host))
    (opt
      (Seq (opt (Seq (ch "/") (Star (Cls (COr (oneof "+~%/.-_") CWord)))))
      (Seq (opt (ch "?"))
      (Seq (Star (Cls (COr (oneof "-+=&;%@._") CWord)))
      (Seq (opt (ch "#")) (Star (Cls CWord)))))))).

(** [^] and [$] are no-ops under fullmatch. *)
Definition email : pattern :=
  Pat (Seq (plus (Cls (COr alpha (COr dec09 (oneof "_.+-")))))
      (Seq (ch "@")
      (Seq (plus (Cls (COr alpha (COr dec09 (oneof "-")))))
      (Seq (ch ".")
           (plus (Cls (COr alpha (COr dec09 (oneof "-."))))))))).

Definition SPECIALS_ALLOWED : list Z :=
  [ (* Periods *)
    46; 1748; 12290; 65106; 65294; 65377;
    (* Parentheses *)
    40; 41; 10222; 10223; 65288; 65289;
    (* Question marks *)
    63; 191; 894; 1374; 1567; 4967; 6469; 8263; 8264; 8265; 11514; 11515;
    11822; 42511; 42743; 65046; 65110; 65311; 69955; 125279;
    (* Exclamation marks *)
    33; 161; 451; 1372; 2041; 4255; 6468; 8252; 8264; 8265; 43639; 65045;
    65111; 65281; 125278 ].

Definition of_codes (l : list Z) : cls :=
  fold_right (fun a k => COr (CChar a) k) (CRange 1 0) l.

Definition alnum_tail : cls :=              (* [\p{N}\p{L}\ SPECIALS] *)
  COr CNumber (COr CLetter (COr (CChar 32) (of_codes SPECIALS_ALLOWED))).

Definition unicode_alphanum : pattern :=
  Pat (Alt (Seq (plus (Cls CNumber)) (Seq (plus (Cls CLetter)) (Star (Cls alnum_tail))))
           (Seq (plus (Cls CLetter)) (plus (Cls alnum_tail)))).

Definition hour : re :=                     (* 0[0-9]|1[0-9]|2[0-3] *)
  alts [Seq (ch "0") (Cls dec09); Seq (ch "1") (Cls dec09);
        Seq (ch "2") (Cls (rng "0" "3"))].
Definition minute : re := Seq (Cls (rng "0" "5")) (Cls dec09).  (* [0-5][0-9] *)

Definition time_hhmmss : pattern :=
  Pat (Seq hour (Seq (ch ":") (Seq minute (Seq (ch ":") minute)))).
Definition time_hhmm : pattern := Pat (Seq hour (Seq (ch ":") minute)).
Definition time_HHMM : pattern := Pat (Seq hour minute).
Definition time_HH : pattern := Pat (Seq hour minute).
Definition time_hmm : pattern :=
  Pat (Seq (alts [Cls dec09; Seq (ch "1") (Cls dec09); Seq (ch "2") (Cls (rng "0" "3"))])
           (Seq (ch ":") minute)).

(** The currency pattern: one \p{Sc} character, an optional \s, then group 1, which captures a run of [.] (any character but a newline). *)
Definition currency : pattern :=
  PatGroup (Seq (Cls CCurrency) (opt (Cls CSpace))) (Star (Cls CAny)).

Definition unix_path : pattern :=
  let pc := COr alpha (COr dec09 (CChar (code "."))) in
  Pat (Seq (rep_range 1 2 (Cls (oneof "/~")))
      (Seq (plus (Seq (plus (Cls pc)) (rep_range 1 2 (ch "/"))))
           (plus (Cls pc)))).

Definition pattern_dict := list (string * pattern).

Definition PATTERNS : pattern_dict :=
  [("number_1", number_1); ("number_2", number_2); ("number_3", number_3);
   ("url", url); ("email", email); ("unicode_alphanum", unicode_alphanum);
   ("time_hhmmss", time_hhmmss); ("time_hhmm", time_hhmm);
   ("time_HHMM", time_HHMM); ("time_HH", time_HH); ("time_hmm", time_hmm);
   ("currency", currency); ("unix_path", unix_path)]%string.

(** [d.get(k, None)] *)
Fixpoint dict_get (k : string) (d : pattern_dict) : option pattern :=
  match d with
  | [] => None
  | (k', v) :: t => if String.eqb k k' then Some v else dict_get k t
  end.

(** [d[k] = v]: overwrite in place, or append a new key. *)
Fixpoint dict_set (k : string) (v : pattern) (d : pattern_dict) : pattern_dict :=
  match d with
  | [] => [(k, v)]
  | (k', v') :: t => if String.eqb k k' then (k, v) :: t else (k', v') :: dict_set k v t
  end.

(** ** Date patterns ([TypeDetector._init_date_patterns]) *)

Definition year2 : re := rep 2 digit.                          (* \d{2} *)
Definition year4 : re := Seq (Cls (oneof "12")) (rep 3 digit). (* [12]\d{3} *)
Definition month_leading : re :=                               (* 0[1-9]|1[0-2] *)
  Alt (Seq (ch "0") (Cls (rng "1" "9"))) (Seq (ch "1") (Cls (rng "0" "2"))).
Definition month_sparse : re :=                                (* [1-9]|1[0-2] *)
  Alt (Cls (rng "1" "9")) (Seq (ch "1") (Cls (rng "0" "2"))).
Definition day_leading : re :=                                 (* 0[1-9]|[12]\d|3[01] *)
  alts [Seq (ch "0") (Cls (rng "1" "9")); Seq (Cls (oneof "12")) digit;
        Seq (ch "3") (Cls (oneof "01"))].
Definition day_sparse : re :=                                  (* [1-9]|[12]\d|3[01] *)
  alts [Cls (rng "1" "9"); Seq (Cls (oneof "12")) digit;
        Seq (ch "3") (Cls (oneof "01"))].
Definition date_sep : re := Cls (oneof "-/. ").                (* [-/\.\ ] *)

(** The CJK joiners 年 月 日 and 년 월 일. *)
Definition cn_year : Z := 24180.
Definition cn_month : Z := 26376.
Definition cn_day : Z := 26085.
Definition ko_year : Z := 45380.
Definition ko_month : Z := 50900.
Definition ko_day : Z := 51068.

(** The five [.format] templates; [sep] is the regex the separator
    string contributes ([Eps] for the empty string). *)
Definition pat_1 (year month day sep : re) : re := Seq year (Seq sep (Seq month (Seq sep day))).
Definition pat_2 (year month day sep : re) : re := Seq day (Seq sep (Seq month (Seq sep year))).
Definition pat_3 (year month day sep : re) : re := Seq month (Seq sep (Seq day (Seq sep year))).
Definition pat_cn (year month day : re) : re :=
  Seq year (Seq (Cls (CChar cn_year)) (Seq month (Seq (Cls (CChar cn_month))
    (Seq day (Cls (CChar cn_day)))))).
Definition pat_ko (year month day : re) : re :=
  Seq year (Seq (Cls (CChar ko_year)) (Seq month (Seq (Cls (CChar ko_month))
    (Seq day (Cls (CChar ko_day)))))).

(** Decimal rendering of a counter, as ["%i"]. *)
Fixpoint show_digits (fuel n : nat) (acc : string) : string :=
  let acc' := String (ascii_of_nat (48 + Nat.modulo n 10)) acc in
  match fuel with
  | O => acc'
  | S f => if Nat.ltb n 10 then acc' else show_digits f (Nat.div n 10) acc'
  end.
Definition show_nat (n : nat) : string := show_digits n n EmptyString.

(** [for pattern in ps: self.patterns["date_%i" % counter] = pattern;
    counter += 1] *)
Definition add_date_patterns (st : nat * pattern_dict) (ps : list re)
  : nat * pattern_dict :=
  fold_left (fun st p => let '(counter, d) := st in
               (S counter, dict_set ("date_" ++ show_nat counter)%string (Pat p) d))
    ps st.

(** The iterations of the triple loop [for year / for month / for day]. *)
Definition loop1_fmts : list (re * re * re) :=
  flat_map (fun year =>
    flat_map (fun month =>
      map (fun day => (year, month, day)) [day_leading; day_sparse])
      [month_leading; month_sparse])
    [year2; year4].

Definition loop1_patterns (f : re * re * re) : list re :=
  let '(year, month, day) := f in
  [pat_1 year month day date_sep; pat_2 year month day date_sep;
   pat_3 year month day date_sep; pat_cn year month day; pat_ko year month day].

(** The variable [pat_cn] still holds its value from the last iteration of
    the first loop when the second loop reads it. *)
Definition pat_cn_after_loop1 : re :=
  let '(year, month, day) := last loop1_fmts (year2, month_leading, day_leading) in
  pat_cn year month day.

Definition loop2_patterns (year : re) : list re :=
  [pat_1 year month_leading day_leading Eps; pat_2 year month_leading day_leading Eps;
   pat_3 year month_leading day_leading Eps; pat_cn_after_loop1].

Definition init_date_patterns (d : pattern_dict) : pattern_dict :=
  let st := fold_left add_date_patterns (map loop1_patterns loop1_fmts) (0%nat, d) in
  snd (fold_left add_date_patterns (map loop2_patterns [year2; year4]) st).

(** [self.patterns] after [__init__]; [_compile_regexes] is the identity
    on ASTs. *)
Definition patterns : pattern_dict := init_date_patterns PATTERNS.
Arguments patterns : simpl never.

(** The Date Format Space in generation order. *)
Definition date_format_space : list pattern :=
  map Pat (List.concat (app (map loop1_patterns loop1_fmts) (map loop2_patterns [year2; year4]))).

(** ** Python helpers *)

Inductive exn := IndexError | AttributeError.

Inductive M (A : Type) : Type :=
| Ok (a : A)
| Err (e : exn).
Arguments Ok {A} a.
Arguments Err {A} e.

Definition bind {A B : Type} (m : M A) (f : A -> M B) : M B :=
  match m with Ok a => f a | Err e => Err e end.

Notation "x <- m ;; f" := (bind m (fun x => f))
  (at level 61, m at next level, right associativity).

(** [lst[n]] *)
Definition index {A : Type} (l : list A) (n : nat) : M A :=
  match nth_error l n with Some x => Ok x | None => Err IndexError end.

Fixpoint lstrip_char (c : Z) (s : list Z) : list Z :=
  match s with
  | a :: t => if a =? c then lstrip_char c t else s
  | [] => []
  end.
Definition rstrip_char (c : Z) (s : list Z) : list Z := rev (lstrip_char c (rev s)).
(** [s.strip(c)] *)
Definition strip_char (c : Z) (s : list Z) : list Z := rstrip_char c (lstrip_char c s).

(** [s.endswith(c)] *)
Definition ends_with (c : Z) (s : list Z) : bool :=
  match rev s with a :: _ => a =? c | [] => false end.

(** [c in s] *)
Definition contains (c : Z) (s : list Z) : bool := existsb (Z.eqb c) s.

(** [s.split(sep)] for a one-character separator. *)
Fixpoint split_on (sep : Z) (s : list Z) : list (list Z) :=
  match s with
  | [] => [[]]
  | a :: t =>
      let r := split_on sep t in
      if a =? sep then [] :: r
      else match r with
           | p :: ps => (a :: p) :: ps
           | [] => [[a]]
           end
  end.

(** [s.lower()] *)
Definition lower (U : ucd) (s : list Z) : list Z := flat_map (u_lower U) s.

Definition SPACE : Z := 32.

(** ** The detector ([TypeDetector]) *)

Inductive label :=
| Lempty | Lurl_or_email | Lnumber | Ltime | Lpercentage | Lcurrency
| Lunicode_alphanum | Lnan | Ldate | Ldatetime.

Section Detector.
Variable U : ucd.
Variable strip_whitespace : bool.

Definition prep (cell : list Z) : list Z :=
  if strip_whitespace then strip_char SPACE cell else cell.

Definition run_regex (cell : list Z) (patname : string) : M bool :=
  let cell := prep cell in
  match dict_get patname patterns with
  | None => Err AttributeError
  | Some pat => Ok (fullmatch U pat cell)
  end.

(** Python's short-circuit [or]. *)
Definition orM (m1 m2 : M bool) : M bool :=
  b <- m1;; if b then Ok true else m2.

Definition is_number (cell : list Z) : M bool :=
  match cell with
  | [] => Ok false
  | _ =>
    b1 <- run_regex cell "number_1";;
    if b1 then Ok true else
    b2 <- run_regex cell "number_2";;
    if b2 then Ok true else
    b3 <- run_regex cell "number_3";;
    if b3 then Ok true else Ok false
  end.

Definition is_url_or_email (cell : list Z) : M bool :=
  orM (run_regex cell "url") (run_regex cell "email").

Definition is_unicode_alphanum (cell : list Z) : M bool :=
  run_regex cell "unicode_alphanum".

(** [for patname in self.patterns: if patname.startswith("date_"): ...] *)
Fixpoint any_date (names : list string) (cell : list Z) : M bool :=
  match names with
  | [] => Ok false
  | n :: t =>
      if String.prefix "date_" n then
        b <- run_regex cell n;;
        if b then Ok true else any_date t cell
      else any_date t cell
  end.

Definition is_date (cell : list Z) : M bool :=
  b <- is_number cell;;
  if b then Ok false else any_date (map fst patterns) cell.

Definition is_time (cell : list Z) : M bool :=
  orM (run_regex cell "time_hmm")
      (orM (run_regex cell "time_hhmm") (run_regex cell "time_hhmmss")).

Definition is_empty (cell : list Z) : M bool :=
  let cell := prep cell in
  Ok (match cell with [] => true | _ => false end).

Definition is_percentage (cell : list Z) : M bool :=
  let cell := prep cell in
  if ends_with 37 cell then is_number (rstrip_char 37 cell) else Ok false.

Definition is_currency (cell : list Z) : M bool :=
  let cell := prep cell in
  match dict_get "currency" patterns with
  | None => Err AttributeError
  | Some (PatGroup pre grp) =>
      match group1 U pre grp cell with
      | None => Ok false
      | Some g => b <- is_number g;; if b then Ok true else Ok false
      end
  | Some pat =>
      (* [m.group(1)] on a pattern without a group raises *)
      if fullmatch U pat cell then Err IndexError else Ok false
  end.

(** The [+] / [-] offset branch of [is_datetime]. *)
Definition offset_branch (sep : Z) (part1 : list Z) : M bool :=
  let subparts := split_on sep part1 in
  s0 <- index subparts 0;;
  istime1 <- is_time s0;;
  s1 <- index subparts 1;;
  istime2 <- is_time s1;;
  if negb istime1 then Ok false else
  if istime2 then Ok true else
  b1 <- run_regex s1 "time_HHMM";;
  if b1 then Ok true else
  b2 <- run_regex s1 "time_HH";;
  if b2 then Ok true else Ok false.

Definition is_datetime (cell : list Z) : M bool :=
  if contains SPACE cell then
    let parts := split_on SPACE cell in
    if Nat.ltb 2 (List.length parts) then Ok false else
    p0 <- index parts 0;;
    d <- is_date p0;;
    if d then (p1 <- index parts 1;; is_time p1) else Ok false
  else if contains (code "T") cell then
    let parts := split_on (code "T") cell in
    if Nat.ltb 2 (List.length parts) then Ok false else
    p0 <- index parts 0;;
    isdate <- is_date p0;;
    if negb isdate then Ok false else
    p1 <- index parts 1;;
    t <- is_time p1;;
    if t then Ok true else
    if contains (code "+") p1 then offset_branch (code "+") p1
    else if contains (code "-") p1 then offset_branch (code "-") p1
    else Ok false
  else Ok false.

Definition is_nan (cell : list Z) : M bool :=
  let cell := prep cell in
  if list_eq_dec Z.eq_dec (lower U cell) (str "n/a") then Ok true else Ok false.

Definition type_tests : list (label * (list Z -> M bool)) :=
  [(Lempty, is_empty); (Lurl_or_email, is_url_or_email); (Lnumber, is_number);
   (Ltime, is_time); (Lpercentage, is_percentage); (Lcurrency, is_currency);
   (Lunicode_alphanum, is_unicode_alphanum); (Lnan, is_nan);
   (Ldate, is_date); (Ldatetime, is_datetime)].

Fixpoint first_true (tests : list (label * (list Z -> M bool))) (cell : list Z)
  : M (option label) :=
  match tests with
  | [] => Ok None
  | (name, func) :: t =>
      b <- func cell;;
      if b then Ok (Some name) else first_true t cell
  end.

(** [None] is Python's [None], the "unknown" type. *)
Definition detect_type (cell : list Z) : M (option label) :=
  first_true type_tests cell.

Definition is_known_type (cell : list Z) : M bool :=
  l <- detect_type cell;;
  Ok (match l with None => false | Some _ => true end).

(** The predicate of each label. *)
Definition pred_of (l : label) : list Z -> M bool :=
  match l with
  | Lempty => is_empty
  | Lurl_or_email => is_url_or_email
  | Lnumber => is_number
  | Ltime => is_time
  | Lpercentage => is_percentage
  | Lcurrency => is_currency
  | Lunicode_alphanum => is_unicode_alphanum
  | Lnan => is_nan
  | Ldate => is_date
  | Ldatetime => is_datetime
  end.

End Detector.

(** The priority order stated by the spec. *)
Definition priority : list label :=
  [Lempty; Lurl_or_email; Lnumber; Ltime; Lpercentage; Lcurrency;
   Lunicode_alphanum; Lnan; Ldate; Ldatetime].

(** ** The type score ([type_score]) *)

Definition DEFAULT_EPS_TYPE : Q := 1 # 10000000000.

(** [max(a, b)]: the first argument unless the second is larger. *)
Definition py_max (a b : Q) : Q := if Qle_bool b a then a else b.

Section Score.
(** The tabular parser [parse_data] of ccsv/parser.py, an arbitrary
    function from the data and the dialect to rows of cells. *)
Variable dialect : Type.
Variable parse_data : list Z -> dialect -> list (list (list Z)).
Variable U : ucd.

(** [for cell in row: total += 1; known += td.is_known_type(cell)];
    [type_score] builds [TypeDetector()], whose strip flag is [True]. *)
Fixpoint count_cells (row : list (list Z)) (acc : Z * Z) : M (Z * Z) :=
  match row with
  | [] => Ok acc
  | cell :: t =>
      b <- is_known_type U true cell;;
      count_cells t (fst acc + 1, snd acc + (if b then 1 else 0))
  end.

Fixpoint count_rows (rows : list (list (list Z))) (acc : Z * Z) : M (Z * Z) :=
  match rows with
  | [] => Ok acc
  | row :: t => acc' <- count_cells row acc;; count_rows t acc'
  end.

(** The division [known / total] is taken exactly, in [Q]. *)
Definition type_score (data : list Z) (d : dialect) (eps : Q) : M Q :=
  acc <- count_rows (parse_data data d) (0, 0);;
  let '(total, known) := acc in
  if total =? 0 then Ok eps
  else Ok (py_max eps (inject_Z known / inject_Z total)).

End Score.

(** The number of cells of known type. *)
Definition known_count (U : ucd) (cells : list (list Z)) : nat :=
  List.length (filter (fun c => match is_known_type U true c with
                                | Ok true => true | _ => false end) cells).

(** [list(gen_known_type(cells))]: the generator builds [TypeDetector()]
    (strip flag [True]) and yields [td.is_known_type(cell)] for each cell;
    an exception ends the iteration. *)
Fixpoint gen_known_type (U : ucd) (cells : list (list Z)) : M (list bool) :=
  match cells with
  | [] => Ok []
  | cell :: t =>
      b <- is_known_type U true cell;;
      r <- gen_known_type U t;;
      Ok (b :: r)
  end.

(** ** Shapes of the strings the time patterns accept *)

Definition digit_code (a : Z) : Prop := 48 <= a <= 57.
Definition hour_code (a b : Z) : Prop :=
  digit_code a /\ digit_code b /\ 10 * (a - 48) + (b - 48) <= 23.
Definition minute_code (a b : Z) : Prop := 48 <= a <= 53 /\ digit_code b.

(** [H:MM], [HH:MM] or [HH:MM:SS], with a two-digit hour [00]-[23] and
    minutes and seconds [00]-[59]. *)
Definition time_shape (s : list Z) : Prop :=
  (exists h m1 m2, s = [h; 58; m1; m2] /\ digit_code h /\ minute_code m1 m2) \/
  (exists h1 h2 m1 m2, s = [h1; h2; 58; m1; m2] /\
     hour_code h1 h2 /\ minute_code m1 m2) \/
  (exists h1 h2 m1 m2 s1 s2, s = [h1; h2; 58; m1; m2; 58; s1; s2] /\
     hour_code h1 h2 /\ minute_code m1 m2 /\ minute_code s1 s2).

(** ** Syntactic summaries of a regular expression *)

(** The character classes a regular expression mentions. *)
Fixpoint re_classes (r : re) : list cls :=
  match r with
  | Void | Eps => []
  | Cls k => [k]
  | Seq r1 r2 | Alt r1 r2 => re_classes r1 ++ re_classes r2
  | Star r1 => re_classes r1
  end.

(** [must_have a r]: every string of [r] contains the character [a]. *)
Fixpoint must_have (a : Z) (r : re) : bool :=
  match r with
  | Void => true
  | Eps | Star _ => false
  | Cls (CChar b) => a =? b
  | Cls _ => false
  | Seq r1 r2 => must_have a r1 || must_have a r2
  | Alt r1 r2 => must_have a r1 && must_have a r2
  end.

(** No newline ([.] matches every character of the string). *)
Definition no_newline (t : list Z) : bool := forallb (fun a => negb (a =? 10)) t.

(** * Lemmas on the matcher *)

Section Matcher.
Variable U : ucd.

Lemma lang_Void s : ~ lang U Void s.
Proof. intro H; inversion H. Qed.

Ltac lang_inv :=
  match goal with
  | H : lang _ Void _ |- _ => inversion H
  | H : lang _ Eps _ |- _ => inversion H; subst; clear H
  | H : lang _ (Seq _ _) _ |- _ => inversion H; subst; clear H
  | H : lang _ (Alt _ _) _ |- _ => inversion H; subst; clear H
  end.

Lemma seq_lang r1 r2 s : lang U (seq r1 r2) s <-> lang U (Seq r1 r2) s.
Proof.
  destruct r1, r2; simpl; split; intro H;
    first
      [ exact H
      | solve [repeat lang_inv]
      | solve [apply (LSeq U _ _ [] s); [constructor | exact H]]
      | solve [repeat lang_inv; simpl; first [assumption | constructor]]
      | solve [inversion H; subst;
               match goal with He : lang _ Eps _ |- _ => inversion He; subst end;
               simpl; assumption] ].
Qed.

Lemma alt_lang r1 r2 s : lang U (alt r1 r2) s <-> lang U (Alt r1 r2) s.
Proof.
  destruct r1, r2; simpl; split; intro H;
    first
      [ exact H
      | solve [apply LAltL; exact H]
      | solve [apply LAltR; exact H]
      | solve [inversion H; subst; [repeat lang_inv | assumption]]
      | solve [inversion H; subst; [assumption | repeat lang_inv]] ].
Qed.

Lemma nullable_lang r : nullable r = true <-> lang U r [].
Proof.
  induction r; simpl; split; intro H; try discriminate.
  - now apply lang_Void in H.
  - constructor.
  - reflexivity.
  - inversion H.
  - apply andb_true_iff in H as [H1 H2].
    change (@nil Z) with (@nil Z ++ []); constructor; tauto.
  - inversion H; subst.
    match goal with E : _ ++ _ = [] |- _ => apply app_eq_nil in E as [-> ->] end.
    apply andb_true_iff; tauto.
  - apply orb_true_iff in H as [H|H]; [apply LAltL | apply LAltR]; tauto.
  - apply orb_true_iff; inversion H; subst; tauto.
  - constructor.
  - reflexivity.
Qed.

Lemma lang_star_cons r a s :
  (forall s', lang U (deriv U a r) s' <-> lang U r (a :: s')) ->
  lang U (Star r) (a :: s) -> lang U (seq (deriv U a r) (Star r)) s.
Proof.
  intros IH H.
  remember (Star r) as r0 eqn:E. remember (a :: s) as s0 eqn:F.
  revert s F. induction H; intros s0' F; try discriminate.
  injection E as ->.
  destruct s1 as [|b s1'].
  - apply IHlang2; auto.
  - simpl in F; injection F as -> <-.
    apply seq_lang. constructor; [apply IH; exact H | exact H0].
Qed.

Lemma deriv_lang a r s : lang U (deriv U a r) s <-> lang U r (a :: s).
Proof.
  revert s; induction r; intro s; simpl.
  - split; intro H; now apply lang_Void in H.
  - split; intro H; [now apply lang_Void in H | inversion H].
  - destruct (cls_eval U k a) eqn:Ek; split; intro H.
    + inversion H; subst; now constructor.
    + inversion H; subst; constructor.
    + now apply lang_Void in H.
    + inversion H; subst; congruence.
  - split; intro H.
    + apply alt_lang in H; inversion H; subst.
      * match goal with Hs : lang U (seq _ _) _ |- _ =>
          apply seq_lang in Hs; inversion Hs; subst end.
        apply (LSeq U r1 r2 (a :: _) _); [apply IHr1|]; assumption.
      * destruct (nullable r1) eqn:N;
          [|match goal with Hv : lang U Void _ |- _ => now apply lang_Void in Hv end].
        apply (LSeq U r1 r2 [] (a :: s)); [apply nullable_lang; exact N | apply IHr2; assumption].
    + apply alt_lang. inversion H as [| | r1' r2' s1 s2 H1 H2 E1 E2 | | | |]; subst.
      destruct s1 as [|b s1'].
      * apply LAltR. simpl in E2; subst.
        assert (N : nullable r1 = true) by (apply nullable_lang; exact H1).
        rewrite N. apply IHr2; exact H2.
      * simpl in E2; injection E2 as -> <-. apply LAltL, seq_lang.
        constructor; [apply IHr1; exact H1 | exact H2].
  - split; intro H.
    + apply alt_lang in H; inversion H; subst;
        [apply LAltL, IHr1 | apply LAltR, IHr2]; assumption.
    + apply alt_lang; inversion H; subst;
        [apply LAltL, IHr1 | apply LAltR, IHr2]; assumption.
  - split; intro H.
    + apply seq_lang in H; inversion H; subst.
      apply (LStarS U r (a :: _) _); [apply IHr|]; assumption.
    + apply lang_star_cons; auto.
Qed.

Lemma matches_re_lang r s : matches_re U r s = true <-> lang U r s.
Proof.
  unfold matches_re; revert r; induction s as [|a s IH]; intro r; simpl.
  - apply nullable_lang.
  - rewrite IH. apply deriv_lang.
Qed.

Lemma matches_re_cons r a s :
  matches_re U r (a :: s) = matches_re U (deriv U a r) s.
Proof. reflexivity. Qed.

Lemma matches_re_Void s : matches_re U Void s = false.
Proof.
  destruct (matches_re U Void s) eqn:E; auto.
  apply matches_re_lang in E; now apply lang_Void in E.
Qed.

End Matcher.

(** * Lemmas on the string helpers *)

Section Strings.
Variable P : Z -> Prop.

Lemma Forall_firstn_Z n (s : list Z) : Forall P s -> Forall P (firstn n s).
Proof.
  revert s; induction n; intros [|a s] H; simpl; auto.
  inversion H; subst; constructor; auto.
Qed.

Lemma Forall_skipn_Z n (s : list Z) : Forall P s -> Forall P (skipn n s).
Proof.
  revert s; induction n; intros [|a s] H; simpl; auto.
  inversion H; subst; auto.
Qed.

Lemma Forall_lstrip c s : Forall P s -> Forall P (lstrip_char c s).
Proof.
  induction s as [|a s IH]; simpl; intro H; auto.
  destruct (a =? c); auto. inversion H; auto.
Qed.

Lemma Forall_rstrip c s : Forall P s -> Forall P (rstrip_char c s).
Proof.
  intro H; unfold rstrip_char.
  apply Forall_rev, Forall_lstrip, Forall_rev, H.
Qed.

Lemma Forall_strip c s : Forall P s -> Forall P (strip_char c s).
Proof. intro H; apply Forall_rstrip, Forall_lstrip, H. Qed.

Lemma Forall_split_on sep s : Forall P s -> Forall (Forall P) (split_on sep s).
Proof.
  induction s as [|a s IH]; simpl; intro H.
  - repeat constructor.
  - inversion H as [|? ? Ha Hs]; subst.
    specialize (IH Hs).
    destruct (a =? sep); [constructor; auto|].
    destruct (split_on sep s) as [|p ps]; [repeat constructor; auto|].
    inversion IH; subst; constructor; [constructor|]; auto.
Qed.

Lemma index_Forall (l : list (list Z)) n x :
  Forall (Forall P) l -> index l n = Ok x -> Forall P x.
Proof.
  unfold index; intros H E.
  destruct (nth_error l n) eqn:N; inversion E; subst.
  apply nth_error_In in N. rewrite Forall_forall in H. auto.
Qed.

End Strings.

Lemma split_on_length sep s :
  List.length (split_on sep s) = S (count_occ Z.eq_dec s sep).
Proof.
  induction s as [|a s IH]; simpl; auto.
  destruct (a =? sep) eqn:E.
  - apply Z.eqb_eq in E; subst. destruct (Z.eq_dec sep sep); [|congruence].
    simpl; rewrite IH; reflexivity.
  - apply Z.eqb_neq in E. destruct (Z.eq_dec a sep); [congruence|].
    destruct (split_on sep s) as [|p ps]; simpl in *; congruence.
Qed.

Lemma contains_count c s :
  contains c s = true -> (0 < count_occ Z.eq_dec s c)%nat.
Proof.
  unfold contains; intro H. apply existsb_exists in H as [x [Hx E]].
  apply Z.eqb_eq in E; subst. apply count_occ_In; exact Hx.
Qed.

(** * Transfer between character databases *)

Section Transfer.
Variables U1 U2 : ucd.

Lemma cls_eval_agree k a :
  ucd_agree U1 U2 a -> cls_eval U1 k a = cls_eval U2 k a.
Proof.
  intros (E1 & E2 & E3 & E4 & E5 & E6 & E7).
  induction k; simpl; auto; congruence.
Qed.

Lemma deriv_agree a r :
  ucd_agree U1 U2 a -> deriv U1 a r = deriv U2 a r.
Proof.
  intro H; induction r; simpl; rewrite ?IHr1, ?IHr2, ?IHr; auto.
  rewrite (cls_eval_agree k a H); reflexivity.
Qed.

Lemma matches_re_agree r s :
  Forall (ucd_agree U1 U2) s -> matches_re U1 r s = matches_re U2 r s.
Proof.
  revert r; induction s as [|a s IH]; intros r H; [reflexivity|].
  inversion H; subst.
  rewrite !matches_re_cons, (deriv_agree a r); auto.
Qed.

Lemma group1_agree pre grp s :
  Forall (ucd_agree U1 U2) s -> group1 U1 pre grp s = group1 U2 pre grp s.
Proof.
  intro H; unfold group1.
  induction (List.length s) as [|n IHn]; cbn [split_from];
    rewrite (matches_re_agree pre (firstn _ s)) by (apply Forall_firstn_Z; exact H);
    rewrite (matches_re_agree grp (skipn _ s)) by (apply Forall_skipn_Z; exact H);
    rewrite ?IHn; reflexivity.
Qed.

Lemma fullmatch_agree p s :
  Forall (ucd_agree U1 U2) s -> fullmatch U1 p s = fullmatch U2 p s.
Proof.
  intro H; destruct p as [r|k r|pre grp]; simpl.
  - apply matches_re_agree; auto.
  - destruct s as [|a t]; auto. inversion H; subst.
    rewrite (cls_eval_agree k a), matches_re_agree; auto.
  - rewrite group1_agree; auto.
Qed.

Lemma group1_Forall (Q : Z -> Prop) U pre grp s g :
  Forall Q s -> group1 U pre grp s = Some g -> Forall Q g.
Proof.
  unfold group1; intros H. generalize (List.length s) as n.
  induction n as [|n IHn]; cbn [split_from]; intro E.
  - destruct (_ && _); [injection E as <-; exact H | discriminate].
  - destruct (_ && _); [injection E as <-; exact (Forall_skipn_Z _ (S n) s H) | apply IHn, E].
Qed.

Lemma bind_cong {A B : Type} (m1 m2 : M A) (f1 f2 : A -> M B) :
  m1 = m2 -> (forall x, m1 = Ok x -> f1 x = f2 x) -> bind m1 f1 = bind m2 f2.
Proof. intros <- H; destruct m1; simpl; auto. Qed.

Variable sw : bool.
Local Abbreviation A s := (Forall (ucd_agree U1 U2) s).

Lemma prep_A s : A s -> A (prep sw s).
Proof. unfold prep; destruct sw; auto using Forall_strip. Qed.

Lemma run_regex_agree s n : A s -> run_regex U1 sw s n = run_regex U2 sw s n.
Proof.
  intro H; unfold run_regex. destruct (dict_get n patterns); auto.
  rewrite fullmatch_agree; auto using prep_A.
Qed.

Lemma is_number_agree s : A s -> is_number U1 sw s = is_number U2 sw s.
Proof.
  intro H; unfold is_number; destruct s; auto.
  rewrite !run_regex_agree; auto.
Qed.

Lemma is_time_agree s : A s -> is_time U1 sw s = is_time U2 sw s.
Proof. intro H; unfold is_time; rewrite !run_regex_agree; auto. Qed.

Lemma is_date_agree s : A s -> is_date U1 sw s = is_date U2 sw s.
Proof.
  intro H; unfold is_date; rewrite is_number_agree by exact H.
  apply bind_cong; [reflexivity|]; intros [|] _; [reflexivity|].
  induction (map fst patterns) as [|n t IH]; cbn [any_date]; [reflexivity|].
  destruct (String.prefix _ _); [|exact IH].
  rewrite run_regex_agree by exact H.
  apply bind_cong; [reflexivity|]; intros [|] _; [reflexivity|exact IH].
Qed.

Lemma offset_branch_agree sep s :
  A s -> offset_branch U1 sw sep s = offset_branch U2 sw sep s.
Proof.
  intro H; unfold offset_branch.
  pose proof (Forall_split_on _ sep s H) as HS.
  apply bind_cong; [reflexivity|]; intros s0 E0.
  rewrite is_time_agree by (eapply index_Forall; eauto).
  apply bind_cong; [reflexivity|]; intros t1 _.
  apply bind_cong; [reflexivity|]; intros s1 E1.
  assert (A s1) by (eapply index_Forall; eauto).
  rewrite is_time_agree by assumption.
  apply bind_cong; [reflexivity|]; intros t2 _.
  destruct t1; [|reflexivity]. cbn [negb]. destruct t2; [reflexivity|].
  rewrite run_regex_agree by assumption.
  apply bind_cong; [reflexivity|]; intros [|] _; [reflexivity|].
  rewrite run_regex_agree by assumption; reflexivity.
Qed.

Lemma is_datetime_agree s : A s -> is_datetime U1 sw s = is_datetime U2 sw s.
Proof.
  intro H; unfold is_datetime.
  destruct (contains SPACE s); [|destruct (contains (code "T") s)]; [| |reflexivity].
  - pose proof (Forall_split_on _ SPACE s H) as HS.
    destruct (Nat.ltb _ _); [reflexivity|].
    apply bind_cong; [reflexivity|]; intros p0 E0.
    rewrite is_date_agree by (eapply index_Forall; eauto).
    apply bind_cong; [reflexivity|]; intros [|] _; [|reflexivity].
    apply bind_cong; [reflexivity|]; intros p1 E1.
    apply is_time_agree; eapply index_Forall; eauto.
  - pose proof (Forall_split_on _ (code "T") s H) as HS.
    destruct (Nat.ltb _ _); [reflexivity|].
    apply bind_cong; [reflexivity|]; intros p0 E0.
    rewrite is_date_agree by (eapply index_Forall; eauto).
    apply bind_cong; [reflexivity|]; intros [|] _; cbn [negb]; [|reflexivity].
    apply bind_cong; [reflexivity|]; intros p1 E1.
    assert (A p1) by (eapply index_Forall; eauto).
    rewrite is_time_agree by assumption.
    apply bind_cong; [reflexivity|]; intros [|] _; [reflexivity|].
    destruct (contains _ p1); [|destruct (contains _ p1)];
      [apply offset_branch_agree; assumption
      |apply offset_branch_agree; assumption
      |reflexivity].
Qed.

Lemma pred_of_agree l s : A s -> pred_of U1 sw l s = pred_of U2 sw l s.
Proof.
  intro H; destruct l; cbn [pred_of].
  - reflexivity.
  - unfold is_url_or_email; rewrite !run_regex_agree by exact H; reflexivity.
  - apply is_number_agree, H.
  - apply is_time_agree, H.
  - unfold is_percentage. destruct (ends_with _ _); [|reflexivity].
    apply is_number_agree, Forall_rstrip, prep_A, H.
  - unfold is_currency.
    destruct (dict_get _ patterns) as [[r|k r|pre grp]|]; [| | |reflexivity].
    1, 2: rewrite fullmatch_agree by (apply prep_A, H); reflexivity.
    rewrite group1_agree by (apply prep_A, H).
    destruct (group1 U2 pre grp _) eqn:G; [|reflexivity].
    rewrite is_number_agree; [reflexivity|].
    eapply group1_Forall; [apply prep_A, H | exact G].
  - apply run_regex_agree, H.
  - unfold is_nan, lower.
    assert (E : forall t, A t -> flat_map (u_lower U1) t = flat_map (u_lower U2) t).
    { induction t as [|a t IH]; cbn [flat_map]; intro Ht; [reflexivity|].
      inversion Ht as [|? ? [? [? [? [? [? [? Hl]]]]]] Ht']; subst.
      rewrite Hl, IH by exact Ht'; reflexivity. }
    rewrite E by (apply prep_A, H). reflexivity.
  - apply is_date_agree, H.
  - apply is_datetime_agree, H.
Qed.

End Transfer.

Lemma type_tests_pred_of U sw :
  type_tests U sw = map (fun l => (l, pred_of U sw l)) priority.
Proof. reflexivity. Qed.

Lemma detect_type_agree U1 U2 sw s :
  Forall (ucd_agree U1 U2) s -> detect_type U1 sw s = detect_type U2 sw s.
Proof.
  intro H; unfold detect_type; rewrite !type_tests_pred_of.
  induction priority as [|l t IH]; cbn [map first_true]; [reflexivity|].
  rewrite (pred_of_agree U1 U2 sw l s H).
  apply bind_cong; [reflexivity|]; intros [|] _; [reflexivity|exact IH].
Qed.

Lemma ascii_Forall U s :
  ascii_ok U -> printable s = true -> Forall (ucd_agree U ascii_db) s.
Proof.
  intros HU Hs. apply Forall_forall; intros a Ha.
  unfold printable in Hs; rewrite forallb_forall in Hs.
  specialize (Hs a Ha); unfold in_range in Hs.
  apply andb_true_iff in Hs as [H1 H2].
  apply HU; lia.
Qed.

(** * No exception is raised *)

Lemma bind_ok {A B : Type} (m : M A) (f : A -> M B) :
  (exists a, m = Ok a) -> (forall a, m = Ok a -> exists b, f a = Ok b) ->
  exists b, bind m f = Ok b.
Proof. intros [a E] H; rewrite E; simpl; apply H, E. Qed.

Lemma dict_get_in n (d : pattern_dict) :
  In n (map fst d) -> exists p, dict_get n d = Some p.
Proof.
  induction d as [|[k v] t IH]; simpl; [tauto|].
  intros [E0|Hn]; destruct (String.eqb n k) eqn:E; eauto.
  subst k; rewrite String.eqb_refl in E; discriminate.
Qed.

Lemma index_ok {A : Type} (l : list A) n :
  (n < List.length l)%nat -> exists x, index l n = Ok x.
Proof.
  unfold index; intro H.
  destruct (nth_error l n) eqn:E; eauto.
  apply nth_error_None in E; lia.
Qed.

Lemma split_on_contains sep s :
  contains sep s = true -> (2 <= List.length (split_on sep s))%nat.
Proof.
  intro H; rewrite split_on_length. apply contains_count in H. lia.
Qed.

Section Total.
Variable U : ucd.
Variable sw : bool.

Lemma run_regex_eq c n p :
  dict_get n patterns = Some p -> run_regex U sw c n = Ok (fullmatch U p (prep sw c)).
Proof. intro E; unfold run_regex; rewrite E; reflexivity. Qed.

Lemma run_regex_ok c n :
  dict_get n patterns <> None -> exists b, run_regex U sw c n = Ok b.
Proof.
  intro H; destruct (dict_get n patterns) as [p|] eqn:E; [|congruence].
  rewrite (run_regex_eq c n p E); eauto.
Qed.

Ltac known_key := let E := fresh in intro E; vm_compute in E; discriminate.

Ltac ok_step :=
  first
    [ reflexivity
    | eexists; reflexivity
    | apply bind_ok; [ apply run_regex_ok; known_key | intros [|] _ ] ].

Lemma is_number_ok c : exists b, is_number U sw c = Ok b.
Proof. unfold is_number; destruct c; repeat ok_step. Qed.

Lemma is_time_ok c : exists b, is_time U sw c = Ok b.
Proof. unfold is_time, orM; repeat ok_step. Qed.

Lemma any_date_ok names c :
  (forall n, In n names -> dict_get n patterns <> None) ->
  exists b, any_date U sw names c = Ok b.
Proof.
  induction names as [|n t IH]; intro H; cbn [any_date]; [eauto|].
  destruct (String.prefix _ _); [|apply IH; intros; apply H; now right].
  apply bind_ok; [apply run_regex_ok, H; now left|].
  intros [|] _; [eauto | apply IH; intros; apply H; now right].
Qed.

Lemma patterns_keys_ok n : In n (map fst patterns) -> dict_get n patterns <> None.
Proof. intros H; apply dict_get_in in H as [p E]; congruence. Qed.

Lemma is_date_ok c : exists b, is_date U sw c = Ok b.
Proof.
  unfold is_date; apply bind_ok; [apply is_number_ok|]; intros [|] _; [eauto|].
  apply any_date_ok, patterns_keys_ok.
Qed.

Lemma offset_branch_ok sep c :
  contains sep c = true -> exists b, offset_branch U sw sep c = Ok b.
Proof.
  intro H; unfold offset_branch.
  pose proof (split_on_contains sep c H) as L.
  apply bind_ok; [apply index_ok; lia|]; intros s0 _.
  apply bind_ok; [apply is_time_ok|]; intros t1 _.
  apply bind_ok; [apply index_ok; lia|]; intros s1 _.
  apply bind_ok; [apply is_time_ok|]; intros t2 _.
  destruct t1; cbn [negb]; [|eauto]. destruct t2; [eauto|].
  repeat ok_step.
Qed.

Lemma is_datetime_ok c : exists b, is_datetime U sw c = Ok b.
Proof.
  unfold is_datetime.
  destruct (contains SPACE c) eqn:HS.
  2: destruct (contains (code "T") c) eqn:HT; [|eauto].
  - pose proof (split_on_contains _ _ HS) as L.
    destruct (Nat.ltb _ _); [eauto|].
    apply bind_ok; [apply index_ok; lia|]; intros p0 _.
    apply bind_ok; [apply is_date_ok|]; intros [|] _; [|eauto].
    apply bind_ok; [apply index_ok; lia|]; intros p1 _.
    apply is_time_ok.
  - pose proof (split_on_contains _ _ HT) as L.
    destruct (Nat.ltb _ _); [eauto|].
    apply bind_ok; [apply index_ok; lia|]; intros p0 _.
    apply bind_ok; [apply is_date_ok|]; intros [|] _; cbn [negb]; [|eauto].
    apply bind_ok; [apply index_ok; lia|]; intros p1 _.
    apply bind_ok; [apply is_time_ok|]; intros [|] _; [eauto|].
    destruct (contains (code "+") p1) eqn:HP; [apply offset_branch_ok, HP|].
    destruct (contains (code "-") p1) eqn:HM; [apply offset_branch_ok, HM|eauto].
Qed.

Lemma dict_get_currency : dict_get "currency" patterns = Some currency.
Proof. vm_compute; reflexivity. Qed.

Lemma pred_of_ok l c : exists b, pred_of U sw l c = Ok b.
Proof.
  destruct l; cbn [pred_of].
  - unfold is_empty; eauto.
  - unfold is_url_or_email, orM; repeat ok_step.
  - apply is_number_ok.
  - apply is_time_ok.
  - unfold is_percentage; destruct (ends_with _ _); [apply is_number_ok | eauto].
  - unfold is_currency; rewrite dict_get_currency; unfold currency.
    destruct (group1 _ _ _ _); [|eauto].
    apply bind_ok; [apply is_number_ok|]; intros [|] _; eauto.
  - unfold is_unicode_alphanum; apply run_regex_ok; known_key.
  - unfold is_nan; destruct (list_eq_dec _ _ _); eauto.
  - apply is_date_ok.
  - apply is_datetime_ok.
Qed.

Lemma detect_type_ok c : exists r, detect_type U sw c = Ok r.
Proof.
  unfold detect_type; rewrite type_tests_pred_of.
  induction priority as [|l t IH]; cbn [map first_true]; [eauto|].
  apply bind_ok; [apply pred_of_ok|]; intros [|] _; eauto.
Qed.

End Total.

(** * The dispatch of [detect_type] *)

Lemma first_true_some (g : label -> list Z -> M bool) ls c l :
  first_true (map (fun l => (l, g l)) ls) c = Ok (Some l) <->
  exists pre post, ls = pre ++ l :: post /\
    Forall (fun l' => g l' c = Ok false) pre /\ g l c = Ok true.
Proof.
  induction ls as [|a t IH]; cbn [map first_true].
  - split; [discriminate|]. intros (pre & post & E & _).
    destruct pre; discriminate.
  - split.
    + destruct (g a c) as [[|]|e] eqn:G; simpl; intro H; try discriminate.
      * injection H as <-. exists [], t; auto.
      * apply IH in H as (pre & post & -> & HF & HT).
        exists (a :: pre), post; auto.
    + intros (pre & post & E & HF & HT).
      destruct pre as [|b pre]; simpl in E; injection E as <- E.
      * rewrite HT; reflexivity.
      * inversion HF as [|? ? Hb HF']; subst. rewrite Hb; simpl.
        apply IH; eauto.
Qed.

Lemma first_true_none (g : label -> list Z -> M bool) ls c :
  first_true (map (fun l => (l, g l)) ls) c = Ok None <->
  Forall (fun l' => g l' c = Ok false) ls.
Proof.
  induction ls as [|a t IH]; cbn [map first_true].
  - split; auto.
  - split.
    + destruct (g a c) as [[|]|e] eqn:G; simpl; intro H; try discriminate.
      constructor; auto. apply IH, H.
    + intro H; inversion H as [|? ? Ha Ht]; subst. rewrite Ha; simpl. apply IH, Ht.
Qed.

Lemma detect_type_some U sw c l :
  detect_type U sw c = Ok (Some l) <->
  exists pre post, priority = pre ++ l :: post /\
    Forall (fun l' => pred_of U sw l' c = Ok false) pre /\ pred_of U sw l c = Ok true.
Proof. unfold detect_type; rewrite type_tests_pred_of; apply first_true_some. Qed.

Lemma detect_type_none U sw c :
  detect_type U sw c = Ok None <->
  Forall (fun l' => pred_of U sw l' c = Ok false) priority.
Proof. unfold detect_type; rewrite type_tests_pred_of; apply first_true_none. Qed.

Lemma ascii_ok_ascii_db : ascii_ok ascii_db.
Proof. intros a _; repeat split. Qed.

Lemma ascii_transfer U sw s :
  ascii_ok U -> printable s = true -> detect_type U sw s = detect_type ascii_db sw s.
Proof. intros HU Hs; apply detect_type_agree, ascii_Forall; assumption. Qed.

Lemma ascii_transfer_pred U sw l s :
  ascii_ok U -> printable s = true -> pred_of U sw l s = pred_of ascii_db sw l s.
Proof. intros HU Hs; apply pred_of_agree, ascii_Forall; assumption. Qed.

Lemma any_date_eq U sw names c :
  (forall n, In n names -> dict_get n patterns <> None) ->
  any_date U sw names c =
  Ok (existsb (fun p => fullmatch U p (prep sw c))
        (flat_map (fun n => if String.prefix "date_" n then
                              match dict_get n patterns with
                              | Some p => [p] | None => [] end
                            else []) names)).
Proof.
  induction names as [|n t IH]; intro H; cbn [any_date flat_map]; [reflexivity|].
  assert (Ht : forall n', In n' t -> dict_get n' patterns <> None)
    by (intros; apply H; now right).
  destruct (String.prefix "date_" n); [|apply IH, Ht].
  destruct (dict_get n patterns) as [p|] eqn:E; [|exfalso; apply (H n); [left; reflexivity | exact E]].
  rewrite (run_regex_eq U sw c n p E); cbn [bind app existsb].
  destruct (fullmatch U p (prep sw c)); [reflexivity|apply IH, Ht].
Qed.

Lemma date_entries_space :
  flat_map (fun n => if String.prefix "date_" n then
                       match dict_get n patterns with
                       | Some p => [p] | None => [] end
                     else []) (map fst patterns) = date_format_space.
Proof. vm_compute; reflexivity. Qed.

Lemma is_date_no_number U sw c :
  is_number U sw c = Ok false ->
  is_date U sw c = Ok (existsb (fun p => fullmatch U p (prep sw c)) date_format_space).
Proof.
  intro H; unfold is_date; rewrite H; cbn [bind].
  rewrite any_date_eq by apply patterns_keys_ok.
  rewrite date_entries_space; reflexivity.
Qed.

(** * Counting for the type score *)

Lemma is_known_type_eq U c :
  is_known_type U true c =
  Ok (match is_known_type U true c with Ok true => true | _ => false end).
Proof.
  unfold is_known_type. destruct (detect_type_ok U true c) as [r E].
  rewrite E; destruct r; reflexivity.
Qed.

Lemma count_cells_spec U row t k :
  count_cells U row (t, k) =
  Ok (t + Z.of_nat (List.length row), k + Z.of_nat (known_count U row)).
Proof.
  revert t k; induction row as [|c row IH]; intros t k; cbn [count_cells].
  - f_equal; f_equal; simpl; lia.
  - rewrite is_known_type_eq; cbn [bind fst snd].
    rewrite IH. unfold known_count; cbn [filter].
    destruct (match is_known_type U true c with Ok true => true | _ => false end);
      cbn [List.length]; f_equal; f_equal; lia.
Qed.

Lemma known_count_app U l1 l2 :
  known_count U (l1 ++ l2) = (known_count U l1 + known_count U l2)%nat.
Proof. unfold known_count; rewrite filter_app, length_app; reflexivity. Qed.

Lemma count_rows_spec U rows t k :
  count_rows U rows (t, k) =
  Ok (t + Z.of_nat (List.length (List.concat rows)),
      k + Z.of_nat (known_count U (List.concat rows))).
Proof.
  revert t k; induction rows as [|row rows IH]; intros t k; cbn [count_rows].
  - simpl; f_equal; f_equal; lia.
  - rewrite count_cells_spec; cbn [bind]. rewrite IH.
    cbn [List.concat]. rewrite length_app, known_count_app.
    f_equal; f_equal; lia.
Qed.

Lemma known_count_le U cells : (known_count U cells <= List.length cells)%nat.
Proof. unfold known_count; apply filter_length_le. Qed.

Lemma known_count_empty U cells :
  Forall (fun c => c = []) cells -> known_count U cells = List.length cells.
Proof.
  intro H; unfold known_count.
  induction H as [|c t Hc Ht IH]; [reflexivity|]. subst c.
  cbn [filter List.length].
  replace (is_known_type U true []) with (Ok true) by reflexivity.
  cbn [List.length]; rewrite IH; reflexivity.
Qed.

Lemma py_max_ge a b : (a <= py_max a b)%Q.
Proof.
  unfold py_max; destruct (Qle_bool b a) eqn:E; [apply Qle_refl|].
  apply Qlt_le_weak, Qnot_le_lt. intro H. apply Qle_bool_iff in H; congruence.
Qed.

Lemma py_max_le a b c : (a <= c)%Q -> (b <= c)%Q -> (py_max a b <= c)%Q.
Proof. unfold py_max; destruct (Qle_bool b a); auto. Qed.

Lemma ratio_le_1 k t : (0 <= k <= t)%Z -> (0 < t)%Z -> (inject_Z k / inject_Z t <= 1)%Q.
Proof.
  intros Hk Ht. apply Qle_shift_div_r.
  - rewrite <- (Qmult_0_l 1). unfold Qlt; simpl; lia.
  - rewrite Qmult_1_l. rewrite <- Zle_Qle. lia.
Qed.

Lemma ratio_eq_1 t : (0 < t)%Z -> (inject_Z t / inject_Z t == 1)%Q.
Proof.
  intro Ht. apply Qmult_inv_r. intro E.
  apply (proj1 (inject_Z_injective _ 0%Z)) in E; lia.
Qed.

(** * Claims *)

(** C1: [detect_type] tries the predicates in the fixed priority empty,
    url-or-email, number, time, percentage, currency, alphanumeric,
    not-a-number, date, date-time, and returns the label of the first
    predicate that holds, or "unknown" ([None]) when none holds. *)
Theorem detect_type_priority U sw c :
  priority = [Lempty; Lurl_or_email; Lnumber; Ltime; Lpercentage; Lcurrency;
              Lunicode_alphanum; Lnan; Ldate; Ldatetime] /\
  (forall l, detect_type U sw c = Ok (Some l) <->
     exists pre post, priority = pre ++ l :: post /\
       Forall (fun l' => pred_of U sw l' c = Ok false) pre /\
       pred_of U sw l c = Ok true) /\
  (detect_type U sw c = Ok None <->
     Forall (fun l' => pred_of U sw l' c = Ok false) priority).
Proof.
  split; [reflexivity|]. split.
  - intro l; apply detect_type_some.
  - apply detect_type_none.
Qed.

(** C2: [detect_type c] is "unknown" exactly when [is_known_type c] is
    false, and a returned label's own predicate holds for [c]. *)
Theorem detect_type_known_type U sw c :
  (detect_type U sw c = Ok None <-> is_known_type U sw c = Ok false) /\
  (forall l, detect_type U sw c = Ok (Some l) -> pred_of U sw l c = Ok true).
Proof.
  split.
  - unfold is_known_type. split; intro H.
    + rewrite H; reflexivity.
    + destruct (detect_type U sw c) as [[l|]|e]; simpl in H; congruence.
  - intros l H. apply detect_type_some in H as (pre & post & _ & _ & HT). exact HT.
Qed.

(** C5: every predicate and [detect_type] return a value on every cell:
    no pattern lookup fails and no index of [is_datetime] is out of
    range; a cell no predicate accepts is reported as [None]
    ("unknown"). *)
Theorem detect_type_total U sw c :
  (forall l, exists b, pred_of U sw l c = Ok b) /\
  (exists r, detect_type U sw c = Ok r) /\
  (exists b, is_known_type U sw c = Ok b) /\
  ((forall l, pred_of U sw l c = Ok false) -> detect_type U sw c = Ok None).
Proof.
  split; [intro l; apply pred_of_ok|].
  split; [apply detect_type_ok|].
  split.
  - unfold is_known_type. destruct (detect_type_ok U sw c) as [r E].
    rewrite E; simpl; eauto.
  - intro H. apply detect_type_none, Forall_forall. intros l _; apply H.
Qed.

(** C3: a cell that is a number is never a date; any other cell is a
    date exactly when (after the configured strip) it fully matches a
    pattern of the generated Date Format Space; ["19990101"], which also
    matches a compact date pattern, is detected as a number. *)
Theorem is_date_spec U sw c :
  (is_number U sw c = Ok true -> is_date U sw c = Ok false) /\
  (is_number U sw c = Ok false ->
     (is_date U sw c = Ok true <->
      exists p, In p date_format_space /\ fullmatch U p (prep sw c) = true)) /\
  (ascii_ok U ->
     is_number U sw (str "19990101") = Ok true /\
     (exists p, In p date_format_space /\ fullmatch U p (str "19990101") = true) /\
     detect_type U sw (str "19990101") = Ok (Some Lnumber)).
Proof.
  split; [intro H; unfold is_date; rewrite H; reflexivity|].
  split.
  - intro H; rewrite (is_date_no_number U sw c H).
    split; intro E.
    + apply existsb_exists; congruence.
    + f_equal; apply existsb_exists; exact E.
  - intro HU.
    assert (HF : Forall (ucd_agree U ascii_db) (str "19990101"))
      by (apply ascii_Forall; [exact HU | reflexivity]).
    split; [|split].
    + rewrite (is_number_agree U ascii_db sw _ HF).
      destruct sw; vm_compute; reflexivity.
    + exists (nth 44 date_format_space (Pat Void)). split.
      * apply nth_In, Nat.ltb_lt; vm_compute; reflexivity.
      * rewrite (fullmatch_agree U ascii_db _ _ HF); vm_compute; reflexivity.
    + rewrite (detect_type_agree U ascii_db sw _ HF).
      destruct sw; vm_compute; reflexivity.
Qed.

Lemma is_date_spec_witness :
  is_date ascii_db true (str "19990101") = Ok false /\
  is_date ascii_db true (str "1999-01-01") = Ok true /\
  detect_type ascii_db true (str "19990101") = Ok (Some Lnumber).
Proof.
  split; [|split].
  - apply (proj1 (is_date_spec ascii_db true (str "19990101"))).
    vm_compute; reflexivity.
  - apply (proj2 (proj1 (proj2 (is_date_spec ascii_db true (str "1999-01-01")))
             ltac:(vm_compute; reflexivity))).
    exists (nth 20 date_format_space (Pat Void)). split.
    + apply nth_In, Nat.ltb_lt; vm_compute; reflexivity.
    + vm_compute; reflexivity.
  - apply (proj2 (proj2 (is_date_spec ascii_db true (str "19990101")))
             ascii_ok_ascii_db).
Defined.

(** C4 (as amended): with no cell the score is [eps]; otherwise it is
    [max(eps, known/total)]; it is never below [eps]; it is at most 1
    when [eps <= 1]; and, when [eps <= 1], a table with at least one cell
    whose cells are all empty scores 1. *)
Theorem type_score_spec (dialect : Type)
    (parse_data : list Z -> dialect -> list (list (list Z)))
    U data d (eps : Q) :
  (0 < eps)%Q ->
  let cells := List.concat (parse_data data d) in
  exists r, type_score dialect parse_data U data d eps = Ok r /\
    (cells = [] -> r = eps) /\
    (cells <> [] ->
       r = py_max eps (inject_Z (Z.of_nat (known_count U cells)) /
                       inject_Z (Z.of_nat (List.length cells)))) /\
    (eps <= r)%Q /\
    ((eps <= 1)%Q -> (r <= 1)%Q) /\
    ((eps <= 1)%Q -> cells <> [] -> Forall (fun c => c = []) cells -> (r == 1)%Q).
Proof.
  intros Heps cells. unfold type_score.
  rewrite count_rows_spec; cbn [bind].
  fold cells. rewrite !Z.add_0_l.
  destruct (Z.of_nat (List.length cells) =? 0)%Z eqn:E0.
  - apply Z.eqb_eq in E0.
    assert (Hc : cells = []) by (destruct cells; [reflexivity|simpl in E0; lia]).
    exists eps; split; [reflexivity|].
    split; [reflexivity|]. split; [congruence|].
    split; [apply Qle_refl|]. split; [auto|congruence].
  - apply Z.eqb_neq in E0.
    assert (Hc : cells <> []) by (intro Hn; rewrite Hn in E0; simpl in E0; lia).
    pose proof (known_count_le U cells) as Hle.
    eexists; split; [reflexivity|].
    split; [congruence|]. split; [reflexivity|].
    split; [apply py_max_ge|]. split.
    + intro H1. apply py_max_le; [exact H1|]. apply ratio_le_1; lia.
    + intros H1 _ Hall. rewrite (known_count_empty U cells Hall).
      unfold py_max.
      pose proof (ratio_eq_1 (Z.of_nat (List.length cells)) ltac:(lia)) as Hr.
      destruct (Qle_bool _ eps) eqn:B.
      * apply Qle_bool_iff in B. apply Qle_antisym; [exact H1|].
        rewrite <- Hr; exact B.
      * exact Hr.
Qed.

Lemma type_score_spec_witness :
  exists r, type_score unit (fun _ _ => [[[]]; [[]]]) ascii_db [] tt (1 # 10) = Ok r /\
            (r == 1)%Q.
Proof.
  destruct (type_score_spec unit (fun _ _ => [[[]]; [[]]]) ascii_db [] tt (1 # 10)
              ltac:(reflexivity)) as (r & E & _ & _ & _ & _ & H1).
  exists r; split; [exact E|].
  apply H1.
  - unfold Qle; simpl; lia.
  - intro Hn; vm_compute in Hn; discriminate Hn.
  - vm_compute; repeat constructor.
Defined.

(** C4 fails as stated: for [eps = 2] a table of one empty cell scores
    [2], outside [eps, 1]; and a table of one unknown cell ["#"] scores
    [eps] although it has a cell. *)
Lemma type_score_counterexample :
  type_score unit (fun _ _ => [[[]]]) ascii_db [] tt 2 = Ok 2%Q /\ ~ (2 <= 1)%Q /\
  type_score unit (fun _ _ => [[str "#"]]) ascii_db [] tt (1 # 10) = Ok (1 # 10)%Q.
Proof.
  split; [vm_compute; reflexivity|]. split; [|vm_compute; reflexivity].
  unfold Qle; simpl; lia.
Qed.

(** C6 (code bug): [is_datetime] tests the unstripped cell for a space,
    unlike the predicates that strip it first: with the strip flag set,
    a trailing space turns a date-time cell into an unknown one. *)
Theorem is_datetime_strip_mismatch U :
  ascii_ok U ->
  is_datetime U true (str "2023-01-01T12:30:00 ") = Ok false /\
  is_datetime U true (strip_char SPACE (str "2023-01-01T12:30:00 ")) = Ok true /\
  detect_type U true (str "2023-01-01T12:30:00 ") = Ok None /\
  detect_type U true (strip_char SPACE (str "2023-01-01T12:30:00 ")) = Ok (Some Ldatetime).
Proof.
  intro HU.
  change (is_datetime U true) with (pred_of U true Ldatetime).
  rewrite !(ascii_transfer_pred U true Ldatetime) by (exact HU || reflexivity).
  rewrite !(ascii_transfer U true) by (exact HU || reflexivity).
  vm_compute; repeat split.
Qed.

Lemma is_datetime_strip_mismatch_witness :
  is_datetime ascii_db true (str "2023-01-01T12:30:00 ") = Ok false /\
  is_datetime ascii_db true (str "2023-01-01T12:30:00") = Ok true.
Proof.
  destruct (is_datetime_strip_mismatch ascii_db ascii_ok_ascii_db) as (H1 & H2 & _).
  split; [exact H1 | exact H2].
Defined.

(** C7: a cell with a space is a date-time exactly when it splits on
    spaces into two parts, a date then a time; and the three sample
    cells are date-times. *)
Theorem is_datetime_spec U sw :
  (forall c, contains SPACE c = true ->
     (is_datetime U sw c = Ok true <->
      exists p1 p2, split_on SPACE c = [p1; p2] /\
        is_date U sw p1 = Ok true /\ is_time U sw p2 = Ok true)) /\
  (ascii_ok U ->
     is_datetime U sw (str "2023-01-01 12:30:00") = Ok true /\
     is_datetime U sw (str "2023-01-01T12:30:00+02:00") = Ok true /\
     is_datetime U sw (str "2023-01-01T12:30:00+0200") = Ok true).
Proof.
  split.
  - intros c H. unfold is_datetime. rewrite H.
    pose proof (split_on_contains SPACE c H) as L.
    destruct (split_on SPACE c) as [|p1 [|p2 [|p3 t]]] eqn:E;
      cbn [List.length] in L; try lia; cbn [List.length Nat.ltb Nat.leb].
    + unfold index; cbn [nth_error bind].
      destruct (is_date_ok U sw p1) as [d Ed]. rewrite Ed; cbn [bind].
      split.
      * destruct d; [|discriminate]. intro Ht. exists p1, p2; auto.
      * intros (q1 & q2 & Eq & Hd & Ht). injection Eq as <- <-.
        rewrite Ed in Hd; injection Hd as ->. exact Ht.
    + split; [discriminate|]. intros (q1 & q2 & Eq & _). discriminate Eq.
  - intro HU.
    change (is_datetime U sw) with (pred_of U sw Ldatetime).
    rewrite !(ascii_transfer_pred U sw Ldatetime) by (exact HU || reflexivity).
    destruct sw; vm_compute; repeat split.
Qed.

Lemma is_datetime_spec_witness :
  is_datetime ascii_db true (str "2023-01-01 12:30:00") = Ok true /\
  is_datetime ascii_db true (str "2023-01-01T12:30:00+0200") = Ok true.
Proof.
  split.
  - apply (proj1 (is_datetime_spec ascii_db true) (str "2023-01-01 12:30:00")
             ltac:(reflexivity)).
    exists (str "2023-01-01"), (str "12:30:00").
    split; [reflexivity|]. split; vm_compute; reflexivity.
  - apply (proj2 (is_datetime_spec ascii_db true) ascii_ok_ascii_db).
Defined.

Lemma hour_minute_eq :
  Seq hour minute =
  Seq (Alt (Seq (Cls (CChar 48)) (Cls (CRange 48 57)))
      (Alt (Seq (Cls (CChar 49)) (Cls (CRange 48 57)))
           (Seq (Cls (CChar 50)) (Cls (CRange 48 51)))))
      (Seq (Cls (CRange 48 53)) (Cls (CRange 48 57))).
Proof. vm_compute. reflexivity. Qed.

Ltac lang_invert :=
  repeat match goal with
  | H : lang _ (Seq _ _) _ |- _ => inversion H; subst; clear H
  | H : lang _ (Alt _ _) _ |- _ => inversion H; subst; clear H
  | H : lang _ (Cls _) _ |- _ => inversion H; subst; clear H
  end.

Ltac zbool :=
  repeat match goal with
  | H : cls_eval _ _ _ = true |- _ => cbn [cls_eval] in H
  | H : in_range _ _ _ = true |- _ => unfold in_range in H
  | H : (_ && _) = true |- _ => apply andb_true_iff in H as [? ?]
  | H : (_ =? _) = true |- _ => apply Z.eqb_eq in H
  | H : (_ <=? _) = true |- _ => apply Z.leb_le in H
  end.

Lemma lang_cls_range U lo hi a :
  lo <= a <= hi -> lang U (Cls (CRange lo hi)) [a].
Proof.
  intro H. constructor. cbn [cls_eval]. unfold in_range.
  apply andb_true_iff; split; apply Z.leb_le; lia.
Qed.

Lemma lang_cls_char U a : lang U (Cls (CChar a)) [a].
Proof. constructor. cbn [cls_eval]. apply Z.eqb_refl. Qed.

(** C8: the two bare offset patterns are the same pattern, both read from
    the pattern table, and they accept exactly the four-digit strings
    HHMM with hour 00-23 and minute 00-59. *)
Theorem time_offset_patterns :
  dict_get "time_HHMM" patterns = Some time_HHMM /\
  dict_get "time_HH" patterns = Some time_HH /\
  forall U s,
    fullmatch U time_HHMM s = fullmatch U time_HH s /\
    (fullmatch U time_HHMM s = true <->
     exists a b c d, s = [a; b; c; d] /\
       48 <= a <= 57 /\ 48 <= b <= 57 /\ 48 <= c <= 57 /\ 48 <= d <= 57 /\
       10 * (a - 48) + (b - 48) <= 23 /\ 10 * (c - 48) + (d - 48) <= 59).
Proof.
  split; [vm_compute; reflexivity|].
  split; [vm_compute; reflexivity|].
  intros U s. split; [reflexivity|].
  unfold time_HHMM, fullmatch. rewrite matches_re_lang, hour_minute_eq.
  split.
  - intro H. lang_invert; zbool; subst;
      eexists _, _, _, _; (split; [reflexivity|]); lia.
  - intros (a & b & c & d & -> & Ha & Hb & Hc & Hd & Hh & Hm).
    change [a; b; c; d] with ([a; b] ++ [c; d]).
    constructor; [| change [c; d] with ([c] ++ [d]);
                    constructor; apply lang_cls_range; lia].
    change [a; b] with ([a] ++ [b]).
    assert (a = 48 \/ a = 49 \/ a = 50) as [-> | [-> | ->]] by lia.
    + apply LAltL. constructor; [apply lang_cls_char | apply lang_cls_range; lia].
    + apply LAltR, LAltL.
      constructor; [apply lang_cls_char | apply lang_cls_range; lia].
    + apply LAltR, LAltR.
      constructor; [apply lang_cls_char | apply lang_cls_range; lia].
Qed.

Lemma fold_deriv_agree U pre r :
  ascii_ok U -> printable pre = true ->
  fold_left (fun r a => deriv U a r) pre r =
  fold_left (fun r a => deriv ascii_db a r) pre r.
Proof.
  intros HU; revert r; induction pre as [|a t IH]; intros r Hp; [reflexivity|].
  cbn [printable forallb] in Hp. unfold printable in IH.
  apply andb_true_iff in Hp as [Ha Ht].
  unfold in_range in Ha; apply andb_true_iff in Ha as [H1 H2].
  apply Z.leb_le in H1; apply Z.leb_le in H2.
  cbn [fold_left]. rewrite (deriv_agree U ascii_db a r (HU a (conj H1 H2))).
  apply IH, Ht.
Qed.

(** A prefix that drives the derivative to [Void] rules out every
    continuation. *)
Lemma matches_re_dead U r pre rest :
  ascii_ok U -> printable pre = true ->
  fold_left (fun r a => deriv ascii_db a r) pre r = Void ->
  matches_re U r (pre ++ rest) = false.
Proof.
  intros HU Hp E. unfold matches_re.
  rewrite fold_left_app, (fold_deriv_agree U pre r HU Hp), E.
  exact (matches_re_Void U rest).
Qed.

Lemma fullmatch_look_dead U k r pre rest :
  ascii_ok U -> pre <> [] -> printable pre = true ->
  fold_left (fun r a => deriv ascii_db a r) pre r = Void ->
  fullmatch U (PatLook k r) (pre ++ rest) = false.
Proof.
  intros HU Hne Hp E. destruct pre as [|a t]; [congruence|].
  cbn [app fullmatch].
  change (a :: t ++ rest) with ((a :: t) ++ rest).
  rewrite (matches_re_dead U r (a :: t) rest HU Hp E). apply andb_false_r.
Qed.

Lemma lstrip_app_head c l m x :
  x <> c -> exists u, lstrip_char c (l ++ x :: m) = u ++ x :: m.
Proof.
  intro Hx. induction l as [|a t IH]; cbn [app lstrip_char].
  - exists []. apply Z.eqb_neq in Hx. rewrite Hx. reflexivity.
  - destruct (a =? c); [exact IH|]. exists (a :: t). reflexivity.
Qed.

Lemma rstrip_app_last c pre x rest :
  x <> c -> exists t, rstrip_char c ((pre ++ [x]) ++ rest) = pre ++ x :: t.
Proof.
  intro Hx. unfold rstrip_char.
  rewrite rev_app_distr, rev_app_distr. cbn [rev app].
  destruct (lstrip_app_head c (rev rest) (rev pre) x Hx) as [u Eu].
  rewrite Eu, rev_app_distr. cbn [rev]. rewrite rev_involutive.
  exists (rev u). rewrite <- app_assoc. reflexivity.
Qed.

Lemma number_leading_zero U sgn d rest :
  ascii_ok U -> In sgn [[]; [43]; [45]] -> 48 <= d <= 57 ->
  fullmatch U number_1 (sgn ++ 48 :: d :: rest) = false /\
  fullmatch U number_2 (sgn ++ 48 :: d :: rest) = false /\
  fullmatch U number_3 (sgn ++ 48 :: d :: rest) = false.
Proof.
  intros HU Hs Hd.
  assert (d = 48 \/ d = 49 \/ d = 50 \/ d = 51 \/ d = 52 \/ d = 53 \/ d = 54 \/
          d = 55 \/ d = 56 \/ d = 57) as Ed by lia.
  destruct Hs as [<- | [<- | [<- | []]]];
    change (?p ++ 48 :: d :: rest) with ((p ++ [48; d]) ++ rest);
    unfold number_2, number_3; cbn [fullmatch];
    (split; [|split]);
    first
      [ apply fullmatch_look_dead; [exact HU | discriminate | |]
      | apply matches_re_dead; [exact HU | |] ];
    repeat destruct Ed as [-> | Ed]; subst; vm_compute; reflexivity.
Qed.

Lemma prep_leading_zero sw sgn d rest :
  In sgn [[]; [43]; [45]] -> 48 <= d <= 57 ->
  exists t, prep sw (sgn ++ 48 :: d :: rest) = sgn ++ 48 :: d :: t.
Proof.
  intros Hs Hd. destruct sw; [|exists rest; reflexivity].
  unfold prep, strip_char.
  assert (Hsp : d <> SPACE) by (unfold SPACE; lia).
  destruct Hs as [<- | [<- | [<- | []]]];
    [ destruct (rstrip_app_last SPACE [48] d rest Hsp) as [t Et]
    | destruct (rstrip_app_last SPACE [43; 48] d rest Hsp) as [t Et]
    | destruct (rstrip_app_last SPACE [45; 48] d rest Hsp) as [t Et] ];
    exists t; exact Et.
Qed.

Lemma is_number_false U sw c :
  c <> [] ->
  fullmatch U number_1 (prep sw c) = false ->
  fullmatch U number_2 (prep sw c) = false ->
  fullmatch U number_3 (prep sw c) = false ->
  is_number U sw c = Ok false.
Proof.
  intros Hne N1 N2 N3. destruct c as [|a t]; [congruence|].
  cbv [is_number].
  rewrite (run_regex_eq U sw _ "number_1" number_1) by (vm_compute; reflexivity).
  rewrite N1; cbn [bind].
  rewrite (run_regex_eq U sw _ "number_2" number_2) by (vm_compute; reflexivity).
  rewrite N2; cbn [bind].
  rewrite (run_regex_eq U sw _ "number_3" number_3) by (vm_compute; reflexivity).
  rewrite N3; reflexivity.
Qed.

(** C9: the empty cell is not a number; the sample cells are numbers;
    and a zero followed by a digit, after an optional sign, is never a
    number (for example "01"): no number pattern accepts it. *)
Theorem is_number_spec U sw :
  is_number U sw [] = Ok false /\
  (ascii_ok U ->
     Forall (fun s => is_number U sw (str s) = Ok true)
       ["0"%string; "-12"%string; "3.14"%string; "3,14"%string; "1e10"%string;
        "1,234.56"%string; "1.234,56"%string] /\
     is_number U sw (str "01") = Ok false /\
     forall sgn d rest, In sgn [[]; [43]; [45]] -> 48 <= d <= 57 ->
       fullmatch U number_1 (sgn ++ 48 :: d :: rest) = false /\
       is_number U sw (sgn ++ 48 :: d :: rest) = Ok false).
Proof.
  split; [reflexivity|]. intro HU. split; [|split].
  - apply Forall_forall. intros s Hs.
    repeat destruct Hs as [<- | Hs]; [..|contradiction];
      change (is_number U sw) with (pred_of U sw Lnumber);
      rewrite (ascii_transfer_pred U sw Lnumber) by (exact HU || reflexivity);
      destruct sw; vm_compute; reflexivity.
  - change (is_number U sw) with (pred_of U sw Lnumber).
    rewrite (ascii_transfer_pred U sw Lnumber) by (exact HU || reflexivity).
    destruct sw; vm_compute; reflexivity.
  - intros sgn d rest Hs Hd.
    split; [apply (number_leading_zero U sgn d rest HU Hs Hd)|].
    destruct (prep_leading_zero sw sgn d rest Hs Hd) as [t Et].
    destruct (number_leading_zero U sgn d t HU Hs Hd) as (N1 & N2 & N3).
    apply is_number_false; [destruct sgn; discriminate | ..]; rewrite Et; assumption.
Qed.

Lemma is_number_spec_witness :
  is_number ascii_db true (str "01") = Ok false /\
  is_number ascii_db false (str "-07.5") = Ok false.
Proof.
  destruct (proj2 (is_number_spec ascii_db true) ascii_ok_ascii_db) as (_ & H1 & _).
  split; [exact H1|].
  apply (proj2 (proj2 (proj2 (is_number_spec ascii_db false) ascii_ok_ascii_db))
           [45] 55 (str ".5")); [simpl; auto | lia].
Defined.

(** C10: the one-character cells "+", "-" and "." are numbers, and so
    the detector labels them as numbers. *)
Theorem sign_dot_numbers U sw :
  ascii_ok U ->
  Forall (fun s => is_number U sw (str s) = Ok true /\
                   detect_type U sw (str s) = Ok (Some Lnumber))
    ["+"%string; "-"%string; "."%string].
Proof.
  intro HU. apply Forall_forall. intros s Hs.
  repeat destruct Hs as [<- | Hs]; [..|contradiction];
    change (is_number U sw) with (pred_of U sw Lnumber);
    rewrite (ascii_transfer_pred U sw Lnumber) by (exact HU || reflexivity);
    rewrite (ascii_transfer U sw) by (exact HU || reflexivity);
    destruct sw; vm_compute; split; reflexivity.
Qed.

Lemma sign_dot_numbers_witness :
  Forall (fun s => is_number ascii_db true (str s) = Ok true /\
                   detect_type ascii_db true (str s) = Ok (Some Lnumber))
    ["+"%string; "-"%string; "."%string].
Proof. apply (sign_dot_numbers ascii_db true ascii_ok_ascii_db). Defined.

(** * Further properties of the detector *)

(** ** Stripping *)

Lemma lstrip_idem c s : lstrip_char c (lstrip_char c s) = lstrip_char c s.
Proof.
  induction s as [|a t IH]; [reflexivity|]. cbn [lstrip_char].
  destruct (a =? c) eqn:E; [exact IH|]. cbn [lstrip_char]. rewrite E. reflexivity.
Qed.

Lemma lstrip_shape c s :
  lstrip_char c s = [] \/ exists a t, lstrip_char c s = a :: t /\ a <> c.
Proof.
  induction s as [|a t IH]; [left; reflexivity|]. cbn [lstrip_char].
  destruct (a =? c) eqn:E; [exact IH|].
  right. exists a, t. split; [reflexivity|]. apply Z.eqb_neq, E.
Qed.

Lemma rstrip_idem c s : rstrip_char c (rstrip_char c s) = rstrip_char c s.
Proof. unfold rstrip_char. rewrite rev_involutive, lstrip_idem. reflexivity. Qed.

Lemma lstrip_rstrip_head c a t :
  a <> c -> lstrip_char c (rstrip_char c (a :: t)) = rstrip_char c (a :: t).
Proof.
  intro Ha. unfold rstrip_char. cbn [rev].
  destruct (lstrip_app_head c (rev t) [] a Ha) as [u Eu]. rewrite Eu.
  rewrite rev_app_distr. cbn [rev app lstrip_char].
  apply Z.eqb_neq in Ha. rewrite Ha. reflexivity.
Qed.

(** [s.strip(c)] is idempotent. *)
Lemma strip_idem c s : strip_char c (strip_char c s) = strip_char c s.
Proof.
  unfold strip_char.
  destruct (lstrip_shape c s) as [E | (a & t & E & Ha)]; rewrite E.
  - reflexivity.
  - rewrite (lstrip_rstrip_head c a t Ha). apply rstrip_idem.
Qed.

Lemma prep_strip c : prep true (strip_char SPACE c) = prep true c.
Proof. unfold prep. apply strip_idem. Qed.

Lemma run_regex_strip U c n :
  run_regex U true (strip_char SPACE c) n = run_regex U true c n.
Proof. unfold run_regex. cbv zeta. rewrite prep_strip. reflexivity. Qed.

Lemma is_number_eq U sw c :
  is_number U sw c =
  match c with
  | [] => Ok false
  | _ => Ok (fullmatch U number_1 (prep sw c) || fullmatch U number_2 (prep sw c)
             || fullmatch U number_3 (prep sw c))
  end.
Proof.
  destruct c as [|a t]; [reflexivity|]. cbv [is_number].
  rewrite (run_regex_eq U sw _ "number_1" number_1) by (vm_compute; reflexivity).
  rewrite (run_regex_eq U sw _ "number_2" number_2) by (vm_compute; reflexivity).
  rewrite (run_regex_eq U sw _ "number_3" number_3) by (vm_compute; reflexivity).
  cbn [bind].
  destruct (fullmatch U number_1 _), (fullmatch U number_2 _), (fullmatch U number_3 _);
    reflexivity.
Qed.

Lemma is_number_strip U c :
  is_number U true (strip_char SPACE c) = is_number U true c.
Proof.
  rewrite !is_number_eq, prep_strip.
  destruct c as [|a t]; [reflexivity|].
  destruct (strip_char SPACE (a :: t)) eqn:E; [|reflexivity].
  unfold prep. rewrite E. reflexivity.
Qed.

Lemma any_date_strip U names c :
  any_date U true names (strip_char SPACE c) = any_date U true names c.
Proof.
  induction names as [|n t IH]; [reflexivity|]. cbn [any_date].
  rewrite run_regex_strip, IH. reflexivity.
Qed.

(** With the strip flag set, every predicate but [is_datetime] gives the
    same answer on a cell and on the cell stripped of its outer spaces. *)
Theorem pred_of_strip U c l :
  l <> Ldatetime ->
  pred_of U true l (strip_char SPACE c) = pred_of U true l c.
Proof.
  intro Hl. destruct l; cbn [pred_of].
  - unfold is_empty. rewrite prep_strip. reflexivity.
  - unfold is_url_or_email. rewrite !run_regex_strip. reflexivity.
  - apply is_number_strip.
  - unfold is_time. rewrite !run_regex_strip. reflexivity.
  - unfold is_percentage. rewrite prep_strip. reflexivity.
  - unfold is_currency. rewrite prep_strip. reflexivity.
  - unfold is_unicode_alphanum. apply run_regex_strip.
  - unfold is_nan. rewrite prep_strip. reflexivity.
  - unfold is_date. rewrite is_number_strip, any_date_strip. reflexivity.
  - congruence.
Qed.

Lemma pred_of_strip_witness :
  pred_of ascii_db true Lnumber (strip_char SPACE (str "  42 ")) =
  pred_of ascii_db true Lnumber (str "  42 ").
Proof. apply (pred_of_strip ascii_db (str "  42 ") Lnumber). discriminate. Defined.

Lemma lstrip_nil_iff c s :
  lstrip_char c s = [] <-> Forall (fun a => a = c) s.
Proof.
  induction s as [|a t IH]; cbn [lstrip_char]; [split; auto|].
  destruct (a =? c) eqn:E.
  - apply Z.eqb_eq in E. rewrite IH. split; [intro H; constructor; auto|].
    intro H; inversion H; auto.
  - split; [discriminate|]. intro H; inversion H; subst. rewrite Z.eqb_refl in E.
    discriminate.
Qed.

Lemma rstrip_cons_ne c a t : a <> c -> rstrip_char c (a :: t) <> [].
Proof.
  intro Ha. unfold rstrip_char. cbn [rev].
  destruct (lstrip_app_head c (rev t) [] a Ha) as [u Eu]. rewrite Eu.
  rewrite rev_app_distr. discriminate.
Qed.

Lemma strip_nil_iff c s :
  strip_char c s = [] <-> Forall (fun a => a = c) s.
Proof.
  rewrite <- lstrip_nil_iff. unfold strip_char.
  destruct (lstrip_shape c s) as [E | (a & t & E & Ha)]; rewrite E.
  - split; reflexivity.
  - split; [intro H; exfalso; exact (rstrip_cons_ne c a t Ha H) | discriminate].
Qed.

(** [is_empty]: with the strip flag a cell is empty exactly when it
    consists of spaces only (possibly none); without it, exactly when it
    is the empty string. *)
Theorem is_empty_spec c :
  (is_empty true c = Ok true <-> Forall (fun a => a = SPACE) c) /\
  (is_empty false c = Ok true <-> c = []).
Proof.
  split; unfold is_empty, prep.
  - rewrite <- strip_nil_iff.
    destruct (strip_char SPACE c); split; congruence.
  - destruct c; split; congruence.
Qed.




(** [_init_date_patterns]: the pattern table holds the thirteen fixed
    patterns followed by [date_0] ... [date_47]; the second loop reads
    the variable [pat_cn] left over from the last iteration of the first
    loop, so [date_43] and [date_47] are the CJK pattern with a
    four-digit year and sparse month and day, the same as [date_38]. *)
Theorem date_patterns_stale_cn :
  map fst patterns =
    app (map fst PATTERNS)
        (map (fun i => ("date_" ++ show_nat i)%string) (List.seq 0 48)) /\
  dict_get "date_38" patterns = Some (Pat (pat_cn year4 month_sparse day_sparse)) /\
  dict_get "date_43" patterns = Some (Pat (pat_cn year4 month_sparse day_sparse)) /\
  dict_get "date_47" patterns = Some (Pat (pat_cn year4 month_sparse day_sparse)).
Proof. repeat split; vm_compute; reflexivity. Qed.

(** ** Times *)

Lemma time_patterns_eq :
  let D := Cls (CRange 48 57) in
  let MM := Seq (Cls (CRange 48 53)) D in
  let C := Cls (CChar 58) in
  let H := Alt (Seq (Cls (CChar 48)) D)
             (Alt (Seq (Cls (CChar 49)) D) (Seq (Cls (CChar 50)) (Cls (CRange 48 51)))) in
  time_hmm = Pat (Seq (Alt D (Alt (Seq (Cls (CChar 49)) D)
                                  (Seq (Cls (CChar 50)) (Cls (CRange 48 51)))))
                      (Seq C MM)) /\
  time_hhmm = Pat (Seq H (Seq C MM)) /\
  time_hhmmss = Pat (Seq H (Seq C (Seq MM (Seq C MM)))).
Proof. vm_compute. repeat split. Qed.

Lemma lang_seq_eq U r1 r2 s1 s2 s :
  lang U r1 s1 -> lang U r2 s2 -> s = s1 ++ s2 -> lang U (Seq r1 r2) s.
Proof. intros H1 H2 ->. constructor; assumption. Qed.

Lemma lang_hour U a b :
  hour_code a b ->
  lang U (Alt (Seq (Cls (CChar 48)) (Cls (CRange 48 57)))
             (Alt (Seq (Cls (CChar 49)) (Cls (CRange 48 57)))
                  (Seq (Cls (CChar 50)) (Cls (CRange 48 51))))) [a; b].
Proof.
  unfold hour_code, digit_code. intros (Ha & Hb & Hh).
  assert (a = 48 \/ a = 49 \/ a = 50) as [-> | [-> | ->]] by lia;
    [apply LAltL | apply LAltR, LAltL | apply LAltR, LAltR];
    match goal with |- lang _ _ [?x; ?y] => apply (lang_seq_eq U _ _ [x] [y]) end;
    try reflexivity;
    (apply lang_cls_char || (apply lang_cls_range; lia)).
Qed.

Lemma lang_minute U a b :
  minute_code a b -> lang U (Seq (Cls (CRange 48 53)) (Cls (CRange 48 57))) [a; b].
Proof.
  unfold minute_code, digit_code. intros (Ha & Hb).
  apply (lang_seq_eq U _ _ [a] [b]); [apply lang_cls_range; lia.. | reflexivity].
Qed.

Ltac time_case :=
  unfold time_shape, hour_code, minute_code, digit_code;
  first
    [ left; eexists _, _, _; split; [reflexivity | lia]
    | right; left; eexists _, _, _, _; split; [reflexivity | lia]
    | right; right; eexists _, _, _, _, _, _; split; [reflexivity | lia] ].

(** [is_time]: a cell is a time exactly when, after the strip the flag
    asks for, it has the shape [H:MM], [HH:MM] or [HH:MM:SS]; seconds
    need a two-digit hour ("9:30:00" is not a time). *)
Theorem is_time_spec U sw c :
  is_time U sw c = Ok true <-> time_shape (prep sw c).
Proof.
  destruct time_patterns_eq as (E1 & E2 & E3).
  unfold is_time.
  rewrite (run_regex_eq U sw c "time_hmm" time_hmm) by (vm_compute; reflexivity).
  rewrite (run_regex_eq U sw c "time_hhmm" time_hhmm) by (vm_compute; reflexivity).
  rewrite (run_regex_eq U sw c "time_hhmmss" time_hhmmss) by (vm_compute; reflexivity).
  rewrite E1, E2, E3. clear E1 E2 E3. unfold orM; cbn [bind fullmatch].
  generalize (prep sw c) as s. intro s.
  split.
  - intro H.
    assert (Hor : forall a b c : bool, (if a then Ok true else if b then Ok true else Ok c)
                                = Ok true -> a = true \/ b = true \/ c = true)
      by (intros [|] [|] [|]; auto; intro E; discriminate E).
    apply Hor in H. clear Hor.
    destruct H as [B | [B | B]];
      match goal with B : matches_re _ _ _ = true |- _ =>
        apply matches_re_lang in B end;
      lang_invert; zbool; subst; time_case.
  - unfold time_shape. intros [(h & m1 & m2 & -> & Hh & Hm) |
                              [(h1 & h2 & m1 & m2 & -> & Hh & Hm) |
                               (h1 & h2 & m1 & m2 & s1 & s2 & -> & Hh & Hm & Hs)]].
    + replace (matches_re U _ [h; 58; m1; m2]) with true; [reflexivity|].
      symmetry; apply matches_re_lang.
      apply (lang_seq_eq U _ _ [h] [58; m1; m2]); [|..|reflexivity].
      * apply LAltL, lang_cls_range. exact Hh.
      * apply (lang_seq_eq U _ _ [58] [m1; m2]);
          [apply lang_cls_char | apply lang_minute, Hm | reflexivity].
    + destruct (matches_re U _ [h1; h2; 58; m1; m2]); [reflexivity|].
      replace (matches_re U _ [h1; h2; 58; m1; m2]) with true; [reflexivity|].
      symmetry; apply matches_re_lang.
      apply (lang_seq_eq U _ _ [h1; h2] [58; m1; m2]); [apply lang_hour, Hh| |reflexivity].
      apply (lang_seq_eq U _ _ [58] [m1; m2]);
        [apply lang_cls_char | apply lang_minute, Hm | reflexivity].
    + destruct (matches_re U _ [h1; h2; 58; m1; m2; 58; s1; s2]); [reflexivity|].
      destruct (matches_re U _ [h1; h2; 58; m1; m2; 58; s1; s2]); [reflexivity|].
      replace (matches_re U _ [h1; h2; 58; m1; m2; 58; s1; s2]) with true; [reflexivity|].
      symmetry; apply matches_re_lang.
      apply (lang_seq_eq U _ _ [h1; h2] [58; m1; m2; 58; s1; s2]);
        [apply lang_hour, Hh| |reflexivity].
      apply (lang_seq_eq U _ _ [58] [m1; m2; 58; s1; s2]); [apply lang_cls_char| |reflexivity].
      apply (lang_seq_eq U _ _ [m1; m2] [58; s1; s2]); [apply lang_minute, Hm| |reflexivity].
      apply (lang_seq_eq U _ _ [58] [s1; s2]);
        [apply lang_cls_char | apply lang_minute, Hs | reflexivity].
Qed.

(** ** Characters of numbers *)

Lemma lang_classes U r s :
  lang U r s ->
  Forall (fun a => exists k, In k (re_classes r) /\ cls_eval U k a = true) s.
Proof.
  induction 1 as [| k a Ha | r1 r2 s1 s2 _ IH1 _ IH2 | r1 r2 s _ IH | r1 r2 s _ IH
                  | r | r s1 s2 _ IH1 _ IH2]; cbn [re_classes].
  - constructor.
  - constructor; [exists k; split; [left; reflexivity | exact Ha] | constructor].
  - apply Forall_app; split; [eapply Forall_impl; [|exact IH1] | eapply Forall_impl; [|exact IH2]];
      intros a (k & Hk & Hc); exists k; (split; [apply in_or_app; auto | exact Hc]).
  - eapply Forall_impl; [|exact IH];
      intros a (k & Hk & Hc); exists k; (split; [apply in_or_app; auto | exact Hc]).
  - eapply Forall_impl; [|exact IH];
      intros a (k & Hk & Hc); exists k; (split; [apply in_or_app; auto | exact Hc]).
  - constructor.
  - apply Forall_app; split; [exact IH1 | exact IH2].
Qed.

Lemma must_have_lang U a r s : must_have a r = true -> lang U r s -> In a s.
Proof.
  intros Hm H; induction H as [| k b Hb | r1 r2 s1 s2 _ IH1 _ IH2 | r1 r2 s _ IH
                               | r1 r2 s _ IH | r | r s1 s2 _ IH1 _ IH2];
    cbn [must_have] in Hm.
  - discriminate.
  - destruct k; try discriminate. cbn [cls_eval] in Hb.
    apply Z.eqb_eq in Hm; apply Z.eqb_eq in Hb; subst; left; reflexivity.
  - apply orb_true_iff in Hm as [Hm | Hm]; apply in_or_app; auto.
  - apply andb_true_iff in Hm as [Hm _]; auto.
  - apply andb_true_iff in Hm as [_ Hm]; auto.
  - discriminate.
  - discriminate.
Qed.

(** A character a number pattern may consume. *)
Ltac number_char :=
  let k := fresh "k" in let Hk := fresh "Hk" in
  let a := fresh "a" in let Ha := fresh "Ha" in
  intros k Hk a Ha; vm_compute in Hk;
  repeat (destruct Hk as [<- | Hk]; [cbn [cls_eval] in Ha; zbool;
    repeat match goal with H : (_ || _) = true |- _ => apply orb_true_iff in H as [H | H] end;
    zbool; subst;
    first [ left; lia | right; right; assumption | right; left; vm_compute; tauto ] |]);
  contradiction.

Lemma number_bodies_chars U :
  forall r, In r [(* number_1 *)
               Seq sign
                 (Seq (opt (Alt (ch "0") (Seq (Cls (rng "1" "9")) (Star digit))))
                   (Alt
                     (cond_opt (ch ".")
                        (Seq (Star digit) (opt (Seq (plus digit) exponent)))
                        (opt exponent))
                     (cond_opt (ch ",")
                        (Seq (plus digit) (opt (Seq (plus digit) exponent)))
                        (opt exponent))));
               number_grouped "," "."; number_grouped "." ","] ->
  forall k, In k (re_classes r) -> forall a, cls_eval U k a = true ->
  48 <= a <= 57 \/ In a (str "+-.,eE") \/ u_Nd U a = true.
Proof.
  intros r Hr. repeat (destruct Hr as [<- | Hr]; [number_char|]). contradiction.
Qed.

(** [is_number]: a number consists of ASCII digits, the characters
    [+ - . , e E] and Unicode decimal digits ([\d]) only, after the
    strip the flag asks for. *)
Theorem is_number_chars U sw c :
  is_number U sw c = Ok true ->
  Forall (fun a => 48 <= a <= 57 \/ In a (str "+-.,eE") \/ u_Nd U a = true)
         (prep sw c).
Proof.
  rewrite is_number_eq. destruct c as [|x t]; [discriminate|].
  intro H. injection H as H. revert H.
  generalize (prep sw (x :: t)) as s. intros s H.
  apply orb_true_iff in H as [H | H]; [apply orb_true_iff in H as [H | H]|].
  - unfold number_1, fullmatch in H. destruct s as [|y s']; [discriminate|].
    apply andb_true_iff in H as [_ H].
    apply matches_re_lang, lang_classes in H.
    eapply Forall_impl; [|exact H]. intros a (k & Hk & Ha).
    eapply (number_bodies_chars U); [left; reflexivity | exact Hk | exact Ha].
  - apply matches_re_lang, lang_classes in H.
    eapply Forall_impl; [|exact H]. intros a (k & Hk & Ha).
    eapply (number_bodies_chars U); [right; left; reflexivity | exact Hk | exact Ha].
  - apply matches_re_lang, lang_classes in H.
    eapply Forall_impl; [|exact H]. intros a (k & Hk & Ha).
    eapply (number_bodies_chars U); [right; right; left; reflexivity | exact Hk | exact Ha].
Qed.

Lemma is_number_chars_witness :
  Forall (fun a => 48 <= a <= 57 \/ In a (str "+-.,eE") \/ u_Nd ascii_db a = true)
         (prep true (str " -1.5e3 ")).
Proof. apply (is_number_chars ascii_db true (str " -1.5e3 ")). vm_compute. reflexivity. Defined.

(** ** Percentages *)

Lemma lstrip_app_head_uniform c l x :
  x <> c -> exists u, forall m, lstrip_char c (l ++ x :: m) = u ++ x :: m.
Proof.
  intro Hx. induction l as [|a t IH].
  - exists []. intro m. cbn [app lstrip_char].
    apply Z.eqb_neq in Hx. rewrite Hx. reflexivity.
  - cbn [app lstrip_char]. destruct (a =? c); [exact IH|].
    exists (a :: t). reflexivity.
Qed.

Lemma rstrip_last_ne c s x : x <> c -> rstrip_char c (s ++ [x]) = s ++ [x].
Proof.
  intro Hx. unfold rstrip_char. rewrite rev_app_distr. cbn [rev app lstrip_char].
  apply Z.eqb_neq in Hx. rewrite Hx. cbn [rev]. rewrite rev_involutive. reflexivity.
Qed.

Lemma rstrip_snoc_same c s : rstrip_char c (s ++ [c]) = rstrip_char c s.
Proof.
  unfold rstrip_char. rewrite rev_app_distr. cbn [rev app lstrip_char].
  rewrite Z.eqb_refl. reflexivity.
Qed.

(** [is_percentage]: a run of trailing percent signs counts as one
    ([str.rstrip("%")] removes them all): "5%%" is a percentage exactly
    when "5%" is. *)
Theorem is_percentage_trailing U sw c :
  is_percentage U sw (c ++ [37; 37]) = is_percentage U sw (c ++ [37]).
Proof.
  unfold is_percentage. cbv zeta.
  assert (E : exists u, prep sw (c ++ [37; 37]) = u ++ [37; 37] /\
                        prep sw (c ++ [37]) = u ++ [37]).
  { destruct sw; unfold prep.
    - destruct (lstrip_app_head_uniform SPACE c 37 ltac:(unfold SPACE; lia)) as [u Eu].
      exists u. unfold strip_char. rewrite !Eu.
      replace (u ++ [37; 37]) with ((u ++ [37]) ++ [37]) by (rewrite <- app_assoc; reflexivity).
      rewrite !rstrip_last_ne by (unfold SPACE; lia).
      rewrite <- app_assoc. split; reflexivity.
    - exists c. split; reflexivity. }
  destruct E as (u & E2 & E1). rewrite E1, E2.
  replace (u ++ [37; 37]) with ((u ++ [37]) ++ [37]) by (rewrite <- app_assoc; reflexivity).
  unfold ends_with. rewrite !rev_app_distr. cbn [rev app Z.eqb].
  rewrite rstrip_snoc_same. reflexivity.
Qed.

Lemma ends_with_In c s : ends_with c s = true -> In c s.
Proof.
  unfold ends_with. destruct (rev s) as [|a t] eqn:E; [discriminate|].
  intro H. apply Z.eqb_eq in H. subst a. apply in_rev. rewrite E. left; reflexivity.
Qed.

(** A percentage is never a number: the two tests of [detect_type] never
    both hold, whatever the strip flag. *)
Theorem is_percentage_not_number U sw c :
  ascii_ok U ->
  is_percentage U sw c = Ok true -> is_number U sw c = Ok false.
Proof.
  intros HU H. unfold is_percentage in H. cbv zeta in H.
  destruct (ends_with 37 (prep sw c)) eqn:E; [|discriminate].
  apply ends_with_In in E.
  destruct (is_number_ok U sw c) as [[|] Hn]; [|exact Hn].
  apply is_number_chars in Hn. rewrite Forall_forall in Hn. specialize (Hn 37 E).
  destruct (HU 37 ltac:(lia)) as [Hd _]. rewrite Hd in Hn.
  exfalso. destruct Hn as [Hn | [Hn | Hn]]; [lia | |].
  - vm_compute in Hn. repeat (destruct Hn as [Hn | Hn]; [discriminate|]). exact Hn.
  - discriminate.
Qed.

Lemma is_percentage_not_number_witness :
  is_percentage ascii_db true (str " 12.5% ") = Ok true /\
  is_number ascii_db true (str " 12.5% ") = Ok false.
Proof.
  assert (H : is_percentage ascii_db true (str " 12.5% ") = Ok true)
    by (vm_compute; reflexivity).
  split; [exact H|].
  apply (is_percentage_not_number ascii_db true (str " 12.5% ") ascii_ok_ascii_db H).
Defined.

(** ** Alphanumeric cells, URLs and e-mail addresses *)

(** [is_unicode_alphanum]: an alphanumeric cell (after the strip) starts
    with a letter or a number character and contains a letter; a cell
    of digits and punctuation alone is never alphanumeric. *)
Theorem is_unicode_alphanum_letter U sw c :
  is_unicode_alphanum U sw c = Ok true ->
  (exists a t, prep sw c = a :: t /\ (u_N U a = true \/ u_L U a = true)) /\
  (exists a, In a (prep sw c) /\ u_L U a = true).
Proof.
  unfold is_unicode_alphanum.
  rewrite (run_regex_eq U sw c "unicode_alphanum" unicode_alphanum)
    by (vm_compute; reflexivity).
  intro H. injection H as H. revert H.
  generalize (prep sw c) as s. intros s H.
  unfold unicode_alphanum, fullmatch, plus in H.
  apply matches_re_lang in H.
  inversion H as [| | | ? ? ? H1 | ? ? ? H1 |  |]; subst; clear H;
    lang_invert; cbn [cls_eval] in *.
  - split.
    + eexists _, _; split; [reflexivity | left; assumption].
    + match goal with Hl : u_L U ?b = true |- _ =>
        exists b; split; [|exact Hl] end.
      rewrite !in_app_iff; simpl; auto.
  - split.
    + eexists _, _; split; [reflexivity | right; assumption].
    + match goal with Hl : u_L U ?b = true |- _ =>
        exists b; split; [|exact Hl] end.
      rewrite !in_app_iff; simpl; auto.
Qed.

Lemma is_unicode_alphanum_letter_witness :
  exists a, In a (prep true (str " 3rd floor ")) /\ u_L ascii_db a = true.
Proof.
  apply (is_unicode_alphanum_letter ascii_db true (str " 3rd floor ")).
  vm_compute; reflexivity.
Defined.

(** [is_url_or_email]: a URL or e-mail cell (after the strip) contains a
    colon or an at sign, or starts with "www". *)
Theorem is_url_or_email_shape U sw c :
  is_url_or_email U sw c = Ok true ->
  In 58 (prep sw c) \/ In 64 (prep sw c) \/ exists t, prep sw c = str "www" ++ t.
Proof.
  unfold is_url_or_email, orM.
  rewrite (run_regex_eq U sw c "url" url) by (vm_compute; reflexivity).
  rewrite (run_regex_eq U sw c "email" email) by (vm_compute; reflexivity).
  cbn [bind]. generalize (prep sw c) as s. intro s.
  destruct (fullmatch U url s) eqn:Hu.
  - intros _. unfold url, fullmatch in Hu. apply matches_re_lang in Hu.
    inversion Hu as [| | ? ? x y Hx _ | | | |]; subst; clear Hu.
    inversion Hx as [| | | ? ? ? H1 | ? ? ? H1 | |]; subst; clear Hx.
    + left. apply in_or_app; left.
      eapply (must_have_lang U 58); [| exact H1]; vm_compute; reflexivity.
    + inversion H1 as [| | ? ? x1 x2 Hx1 _ | | | |]; subst; clear H1.
      inversion Hx1 as [| | | ? ? ? H2 | ? ? ? H2 | |]; subst; clear Hx1.
      * right; right. cbv [lit ch code] in H2. cbn in H2.
        lang_invert. zbool. subst. eexists. simpl. reflexivity.
      * right; left. apply in_or_app; left. apply in_or_app; left.
        eapply (must_have_lang U 64); [| exact H2]; vm_compute; reflexivity.
  - intro He. injection He as He. right; left.
    unfold email, fullmatch in He. apply matches_re_lang in He.
    eapply (must_have_lang U 64); [| exact He]; vm_compute; reflexivity.
Qed.

Lemma is_url_or_email_shape_witness :
  In 58 (prep true (str "www.example.org")) \/ In 64 (prep true (str "www.example.org")) \/
  exists t, prep true (str "www.example.org") = str "www" ++ t.
Proof.
  apply (is_url_or_email_shape ascii_db true (str "www.example.org")).
  vm_compute; reflexivity.
Defined.

(** ** Currencies *)

Lemma matches_star_any U y :
  matches_re U (Star (Cls CAny)) y = forallb (fun a => negb (a =? 10)) y.
Proof.
  induction y as [|a y IH]; [reflexivity|].
  rewrite matches_re_cons. cbn [deriv cls_eval forallb].
  destruct (negb (a =? 10)); cbn [seq andb]; [exact IH | apply matches_re_Void].
Qed.

Lemma fold_deriv_Void U t : fold_left (fun r a => deriv U a r) t Void = Void.
Proof. induction t as [|a t IH]; [reflexivity|]. exact IH. Qed.

Lemma matches_currency_pre U x :
  matches_re U (Seq (Cls CCurrency) (opt (Cls CSpace))) x =
  match x with
  | [a] => u_Sc U a
  | [a; w] => u_Sc U a && u_space U w
  | _ => false
  end.
Proof.
  unfold matches_re, opt.
  destruct x as [|a [|w [|z t]]]; [reflexivity| | |]; simpl;
    destruct (u_Sc U a); simpl; try reflexivity;
    try (destruct (u_space U w); simpl); try reflexivity;
    rewrite fold_deriv_Void; reflexivity.
Qed.

Lemma split_from_long U grp s k :
  (2 <= k <= List.length s)%nat ->
  split_from U (Seq (Cls CCurrency) (opt (Cls CSpace))) grp s k =
  split_from U (Seq (Cls CCurrency) (opt (Cls CSpace))) grp s 2.
Proof.
  induction k as [|k IH]; intro Hk; [lia|].
  destruct (Nat.eq_dec k 1) as [->|Hk1]; [reflexivity|].
  cbn [split_from]. rewrite matches_currency_pre.
  assert (Hl : List.length (firstn (S k) s) = S k) by (rewrite length_firstn; lia).
  destruct (firstn (S k) s) as [|a [|w [|z t]]]; cbn [List.length] in Hl; try lia.
  apply IH; lia.
Qed.

Lemma group1_currency U s :
  group1 U (Seq (Cls CCurrency) (opt (Cls CSpace))) (Star (Cls CAny)) s =
  match s with
  | a :: w :: t' =>
      if u_Sc U a && u_space U w && no_newline t' then Some t'
      else if u_Sc U a && no_newline (w :: t') then Some (w :: t') else None
  | [a] => if u_Sc U a then Some [] else None
  | [] => None
  end.
Proof.
  unfold group1.
  destruct s as [|a [|w t']]; [reflexivity| |].
  - cbn [List.length split_from firstn skipn]. rewrite !matches_currency_pre, !matches_star_any.
    destruct (u_Sc U a); reflexivity.
  - rewrite split_from_long by (cbn [List.length]; lia).
    cbn [split_from firstn skipn]. rewrite !matches_currency_pre, !matches_star_any.
    unfold no_newline. cbn [forallb].
    destruct (u_Sc U a), (u_space U w), (negb (w =? 10)), (forallb _ t'); reflexivity.
Qed.

Lemma currency_number_true U sw (g : option (list Z)) :
  (match g with
   | None => Ok false
   | Some g => b <- is_number U sw g;; if b then Ok true else Ok false
   end) = Ok true <-> exists x, g = Some x /\ is_number U sw x = Ok true.
Proof.
  destruct g as [x|]; [|split; [discriminate | intros (x & E & _); discriminate]].
  destruct (is_number_ok U sw x) as [[|] E]; rewrite E; cbn [bind].
  - split; [intros _; eauto | reflexivity].
  - split; [discriminate | intros (y & Ey & Hy); injection Ey as <-; congruence].
Qed.

(** [is_currency]: after the strip the flag asks for, a currency cell is
    a currency symbol ([\p{Sc}]) followed by group 1 of the pattern, which
    must be a number. The optional [\s] is taken when the rest after it
    has no newline, and left otherwise; group 1 ([.*]) has no newline. *)
Theorem is_currency_spec U sw c :
  is_currency U sw c = Ok true <->
  exists a t, prep sw c = a :: t /\ u_Sc U a = true /\
    ((exists w t', t = w :: t' /\ u_space U w = true /\ no_newline t' = true /\
                   is_number U sw t' = Ok true) \/
     (~ (exists w t', t = w :: t' /\ u_space U w = true /\ no_newline t' = true) /\
      no_newline t = true /\ is_number U sw t = Ok true)).
Proof.
  unfold is_currency. cbv zeta. rewrite dict_get_currency. unfold currency.
  rewrite group1_currency, currency_number_true.
  generalize (prep sw c) as s. intro s.
  destruct s as [|a [|w t']].
  - split; [intros (x & Hx & _); discriminate | intros (a & t & E & _); discriminate].
  - split.
    + intros (x & Hx & Hn). destruct (u_Sc U a); [|discriminate].
      injection Hx as <-. discriminate Hn.
    + intros (a' & t & E & Ha & [(w & t'' & Et & _) | (_ & _ & Hn)]);
        injection E as <- <-; [discriminate | discriminate Hn].
  - split.
    + intros (x & Hx & Hn). exists a, (w :: t').
      destruct (u_Sc U a) eqn:Ea; [|discriminate Hx].
      split; [reflexivity | split; [reflexivity|]]. cbn [andb] in Hx.
      destruct (u_space U w) eqn:Ew, (no_newline t') eqn:Nt; cbn [andb] in Hx.
      * injection Hx as <-. left. exists w, t'. auto.
      * unfold no_newline in Hx, Nt. cbn [forallb] in Hx.
        rewrite Nt, andb_false_r in Hx. discriminate Hx.
      * destruct (no_newline (w :: t')) eqn:Nw; [|discriminate Hx].
        injection Hx as <-. right. split; [|split; [reflexivity | assumption]].
        intros (w' & t'' & E & Hsp & _). injection E as <- <-. congruence.
      * unfold no_newline in Hx, Nt. cbn [forallb] in Hx.
        rewrite Nt, andb_false_r in Hx. discriminate Hx.
    + intros (a' & t & E & Ha & H). injection E as <- <-. rewrite Ha. cbn [andb].
      destruct H as [(w' & t'' & Et & Hsp & Hnl & Hn) | (Hno & Hnl & Hn)].
      * injection Et as <- <-. rewrite Hsp, Hnl. eexists; split; [reflexivity | eassumption].
      * destruct (u_space U w && no_newline t') eqn:B.
        -- exfalso; apply Hno. apply andb_true_iff in B as [B1 B2]. exists w, t'. auto.
        -- rewrite Hnl. exists (w :: t'). auto.
Qed.

Lemma is_currency_spec_witness :
  is_currency ascii_db true (str " $ 12.50") = Ok true /\
  is_currency ascii_db false (str "$  12") = Ok false.
Proof.
  split.
  - apply (proj2 (is_currency_spec ascii_db true (str " $ 12.50"))).
    exists 36, (str " 12.50"). split; [reflexivity|]. split; [reflexivity|].
    left. exists 32, (str "12.50"). vm_compute. auto.
  - destruct (is_currency ascii_db false (str "$  12")) as [[|]|] eqn:E;
      [exfalso | reflexivity | discriminate E].
    apply (is_currency_spec ascii_db false (str "$  12")) in E.
    destruct E as (a & t & Ep & _ & [(w & t' & Et & _ & _ & Hn) | (_ & _ & Hn)]);
      injection Ep as <- <-; [injection Et as <- <-|]; discriminate Hn.
Defined.

(** ** Not-a-number *)

Lemma lower_ascii_db s :
  lower ascii_db s = map (fun a => if in_range 65 90 a then a + 32 else a) s.
Proof.
  unfold lower. induction s as [|a s IH]; [reflexivity|].
  change (flat_map (u_lower ascii_db) (a :: s))
    with (u_lower ascii_db a ++ flat_map (u_lower ascii_db) s).
  rewrite IH. cbn [u_lower ascii_db map].
  destruct (in_range 65 90 a); reflexivity.
Qed.

Lemma lower_agree U1 U2 s : Forall (ucd_agree U1 U2) s -> lower U1 s = lower U2 s.
Proof.
  unfold lower. induction 1 as [|a s (_ & _ & _ & _ & _ & _ & E) _ IH]; [reflexivity|].
  cbn [flat_map]. rewrite E, IH. reflexivity.
Qed.

Lemma lower_char a v :
  (if in_range 65 90 a then a + 32 else a) = v ->
  (65 <= a <= 90 /\ v = a + 32) \/ (~ (65 <= a <= 90) /\ v = a).
Proof.
  unfold in_range. destruct (65 <=? a) eqn:E1, (a <=? 90) eqn:E2; cbn [andb];
    apply Z.leb_le in E1 || apply Z.leb_gt in E1;
    apply Z.leb_le in E2 || apply Z.leb_gt in E2; intro H; lia.
Qed.

(** [is_nan]: on a printable ASCII cell, with a database that agrees
    with Unicode there, the cell is "not a number" exactly when, after
    the strip the flag asks for, it is "n/a" in any mix of cases. *)
Theorem is_nan_spec U sw c :
  ascii_ok U -> printable c = true ->
  (is_nan U sw c = Ok true <->
   exists x y, prep sw c = [x; 47; y] /\ (x = 78 \/ x = 110) /\ (y = 65 \/ y = 97)).
Proof.
  intros HU Hp. unfold is_nan. cbv zeta.
  pose proof (prep_A U ascii_db sw c (ascii_Forall U c HU Hp)) as HA.
  rewrite (lower_agree _ _ _ HA), lower_ascii_db. clear HA.
  generalize (prep sw c) as s. intro s.
  destruct (list_eq_dec Z.eq_dec _ (str "n/a")) as [E | E].
  - split; [intros _ | reflexivity].
    destruct s as [|x [|m [|y [|z t]]]]; try discriminate E.
    change (str "n/a") with [110; 47; 97] in E.
    cbn [map] in E. injection E as Ex Em Ey.
    apply lower_char in Ex; apply lower_char in Em; apply lower_char in Ey.
    assert (m = 47) by lia. subst m.
    exists x, y. split; [reflexivity | lia].
  - split; [discriminate|].
    intros (x & y & -> & Hx & Hy). exfalso. apply E.
    destruct Hx as [-> | ->], Hy as [-> | ->]; reflexivity.
Qed.

Lemma is_nan_spec_witness :
  is_nan ascii_db true (str " N/a ") = Ok true.
Proof.
  apply (is_nan_spec ascii_db true (str " N/a ") ascii_ok_ascii_db ltac:(reflexivity)).
  exists 78, 97. split; [reflexivity | lia].
Defined.

(** ** Date-times *)

(** [is_datetime]: a cell with neither a space nor a [T] is never a
    date-time; nor is a cell with a space that splits on spaces into
    more than two parts, nor a cell without a space that splits on [T]
    into more than two parts. *)
Theorem is_datetime_edges U sw c :
  (contains SPACE c = false -> contains 84 c = false ->
     is_datetime U sw c = Ok false) /\
  (contains SPACE c = true -> (2 <= count_occ Z.eq_dec c SPACE)%nat ->
     is_datetime U sw c = Ok false) /\
  (contains SPACE c = false -> (2 <= count_occ Z.eq_dec c 84%Z)%nat ->
     is_datetime U sw c = Ok false).
Proof.
  unfold is_datetime. change (code "T") with 84.
  split; [|split]; intros H1 H2; rewrite H1.
  - rewrite H2. reflexivity.
  - rewrite split_on_length.
    replace (Nat.ltb 2%nat (S (count_occ Z.eq_dec c SPACE))) with true
      by (symmetry; apply Nat.ltb_lt; lia).
    reflexivity.
  - assert (Hc : contains 84 c = true).
    { unfold contains. apply existsb_exists.
      exists 84. split; [|apply Z.eqb_refl].
      apply (count_occ_In Z.eq_dec). lia. }
    rewrite Hc, split_on_length.
    replace (Nat.ltb 2%nat (S (count_occ Z.eq_dec c 84))) with true
      by (symmetry; apply Nat.ltb_lt; lia).
    reflexivity.
Qed.

Lemma is_datetime_edges_witness :
  is_datetime ascii_db true (str "2023-01-01 12:30 +01:00") = Ok false.
Proof.
  apply (proj1 (proj2 (is_datetime_edges ascii_db true (str "2023-01-01 12:30 +01:00"))));
    vm_compute; [reflexivity | lia].
Defined.






(** ** The type score and [gen_known_type] *)

Lemma known_count_full U cells :
  known_count U cells = List.length cells <->
  Forall (fun c => is_known_type U true c = Ok true) cells.
Proof.
  induction cells as [|c t IH]; [split; auto|].
  pose proof (known_count_le U t) as Hle.
  unfold known_count in *. cbn [filter List.length].
  destruct (is_known_type U true c) as [[|]|] eqn:E; cbn [List.length].
  - split.
    + intro H; constructor; [exact E | apply IH; lia].
    + intro H; inversion H; subst. apply f_equal, IH; assumption.
  - split; [lia | intro H; inversion H; congruence].
  - split; [lia | intro H; inversion H; congruence].
Qed.

(** [type_score]: when [eps] lies strictly between 0 and 1 and the table
    has a cell, the score is 1 exactly when every cell has a known type. *)
Theorem type_score_one_iff (dialect : Type)
    (parse_data : list Z -> dialect -> list (list (list Z)))
    U data d (eps : Q) :
  (0 < eps)%Q -> (eps < 1)%Q -> List.concat (parse_data data d) <> [] ->
  exists r, type_score dialect parse_data U data d eps = Ok r /\
    ((r == 1)%Q <->
     Forall (fun c => is_known_type U true c = Ok true) (List.concat (parse_data data d))).
Proof.
  intros He0 He1 Hne. unfold type_score. rewrite count_rows_spec; cbn [bind].
  rewrite !Z.add_0_l.
  set (cells := List.concat (parse_data data d)) in *.
  pose proof (known_count_le U cells) as Hle.
  assert (Hn : (0 < Z.of_nat (List.length cells))%Z)
    by (destruct cells; [congruence | cbn [List.length]; lia]).
  replace (Z.of_nat (List.length cells) =? 0)%Z with false by (symmetry; apply Z.eqb_neq; lia).
  set (k := Z.of_nat (known_count U cells)).
  set (n := Z.of_nat (List.length cells)).
  assert (Hkn : (0 <= k <= n)%Z) by (unfold k, n; lia).
  assert (Hx : (inject_Z k / inject_Z n == 1)%Q <-> k = n).
  { split.
    - intro H. destruct (Z.eq_dec k n) as [|Hne']; [assumption|]. exfalso.
      assert (Hlt : (inject_Z k / inject_Z n < 1)%Q).
      { apply Qlt_shift_div_r; [unfold Qlt; simpl; lia|].
        rewrite Qmult_1_l. rewrite <- Zlt_Qlt. lia. }
      rewrite H in Hlt. apply (Qlt_irrefl 1), Hlt.
    - intros ->. apply ratio_eq_1. exact Hn. }
  assert (Hiff : k = n <-> Forall (fun c => is_known_type U true c = Ok true) cells).
  { rewrite <- known_count_full. unfold k, n; lia. }
  eexists; split; [reflexivity|].
  eapply iff_trans; [| apply Hiff]. eapply iff_trans; [| apply Hx]. unfold py_max.
  destruct (Qle_bool _ eps) eqn:B.
  - apply Qle_bool_iff in B. split.
    + intro H. rewrite H in He1. exfalso; apply (Qlt_irrefl 1), He1.
    + intro H. rewrite H in B. exfalso. apply (Qlt_not_le _ _ He1), B.
  - reflexivity.
Qed.

Lemma type_score_one_iff_witness :
  exists r, type_score unit (fun _ _ => [[str "1"; str "x"]]) ascii_db [] tt (1 # 10) = Ok r /\
    ((r == 1)%Q <->
     Forall (fun c => is_known_type ascii_db true c = Ok true) [str "1"; str "x"]).
Proof.
  apply (type_score_one_iff unit (fun _ _ => [[str "1"; str "x"]]) ascii_db [] tt (1 # 10));
    [reflexivity | reflexivity | discriminate].
Defined.

(** [type_score]: a table none of whose cells has a known type scores
    [eps] (for a non-negative [eps]). *)
Theorem type_score_none_known (dialect : Type)
    (parse_data : list Z -> dialect -> list (list (list Z)))
    U data d (eps : Q) :
  (0 <= eps)%Q ->
  Forall (fun c => is_known_type U true c = Ok false) (List.concat (parse_data data d)) ->
  type_score dialect parse_data U data d eps = Ok eps.
Proof.
  intros He Hall. unfold type_score. rewrite count_rows_spec; cbn [bind].
  rewrite !Z.add_0_l.
  set (cells := List.concat (parse_data data d)) in *.
  assert (Hk : known_count U cells = 0%nat).
  { unfold known_count. induction Hall as [|c t Hc _ IH]; [reflexivity|].
    cbn [filter]. rewrite Hc. exact IH. }
  rewrite Hk. destruct (Z.of_nat (List.length cells) =? 0)%Z; [reflexivity|].
  unfold py_max.
  replace (Qle_bool (inject_Z (Z.of_nat 0) / inject_Z (Z.of_nat (List.length cells))) eps)
    with true; [reflexivity|].
  symmetry. apply Qle_bool_iff. cbn [Z.of_nat inject_Z].
  unfold Qdiv. rewrite Qmult_0_l. exact He.
Qed.

Lemma type_score_none_known_witness :
  type_score unit (fun _ _ => [[str "#"; str "?!"]]) ascii_db [] tt (1 # 10) = Ok (1 # 10).
Proof.
  apply (type_score_none_known unit (fun _ _ => [[str "#"; str "?!"]]) ascii_db [] tt (1 # 10)).
  - unfold Qle; simpl; lia.
  - apply Forall_forall. intros x Hx. cbn [List.concat app In] in Hx.
    destruct Hx as [<- | [<- | []]]; vm_compute; reflexivity.
Defined.

(** [gen_known_type] never raises and yields, for each cell in order,
    whether it has a known type; the number of [True]s it yields over the
    parsed cells is the numerator of [type_score]. *)
Theorem gen_known_type_score (dialect : Type)
    (parse_data : list Z -> dialect -> list (list (list Z)))
    U data d (eps : Q) :
  let cells := List.concat (parse_data data d) in
  exists bs, gen_known_type U cells = Ok bs /\
    Forall2 (fun c b => is_known_type U true c = Ok b) cells bs /\
    type_score dialect parse_data U data d eps =
      Ok (if (Z.of_nat (List.length bs) =? 0)%Z then eps
          else py_max eps (inject_Z (Z.of_nat (count_occ Bool.bool_dec bs true)) /
                           inject_Z (Z.of_nat (List.length bs)))).
Proof.
  intro cells.
  assert (G : forall l, exists bs, gen_known_type U l = Ok bs /\
            Forall2 (fun c b => is_known_type U true c = Ok b) l bs /\
            count_occ Bool.bool_dec bs true = known_count U l /\
            List.length bs = List.length l).
  { induction l as [|c t (bs & E & F & C & L)].
    - exists []. repeat split; constructor.
    - destruct (detect_type_ok U true c) as [r Er].
      assert (Ek : is_known_type U true c =
                   Ok (match r with None => false | Some _ => true end))
        by (unfold is_known_type; rewrite Er; reflexivity).
      exists ((match r with None => false | Some _ => true end) :: bs).
      cbn [gen_known_type]. rewrite Ek, E. cbn [bind].
      split; [reflexivity|]. split; [constructor; assumption|].
      unfold known_count in *. cbn [filter count_occ List.length]. rewrite Ek.
      destruct r.
      + destruct (Bool.bool_dec true true) as [_ | n]; [|congruence].
        cbn [List.length]. split; lia.
      + destruct (Bool.bool_dec false true) as [e | _]; [discriminate|].
        split; lia. }
  destruct (G cells) as (bs & E & F & C & L).
  exists bs. split; [exact E|]. split; [exact F|].
  unfold type_score. rewrite count_rows_spec; cbn [bind]. rewrite !Z.add_0_l.
  fold cells. rewrite C, L. destruct (_ =? 0)%Z; reflexivity.
Qed.
